(** * The forwarder of a fabric router (router/forwarder/forwarder.go)

    A shallow embedding of the [Forwarder] facade: the session table, the
    destination table, the control operations ([Route], [Unroute],
    [RegisterDestination], [RegisterLink], ...), the data path
    ([ForwardPayload], [ForwardAcknowledgement]) and the unroute timeout
    worker, followed by the properties the specification states about them.

    Go's concurrent maps are finite maps ([gmap]); a method that mutates the
    forwarder is a computation in a small state monad that also records the
    calls leaving the forwarder (sends, goroutines, log lines) and that can
    panic, as a failed Go type assertion does. *)

From Stdlib Require Import ZArith.
From stdpp Require Import gmap strings list fin_maps.

Local Open Scope string_scope.
Local Open Scope list_scope.
Local Open Scope Z_scope.

(** ** Data model *)

(** [xgress.Address] and session identifiers are Go strings. *)
Abbreviation Address := string (only parsing).
Abbreviation SessionId := string (only parsing).

(** A Go [error] value; [None : option error] is [nil]. *)
Inductive error := Errorf (msg : string).

(** Modelled from the spec: [xgress.Payload] and [xgress.Acknowledgement] are
    declared in package xgress, not in forwarder.go; section 3 gives them as
    opaque values that carry at least a session identifier. *)
Record Payload := mkPayload {
  Payload_SessionId : SessionId;
  Payload_Sequence : Z;
  Payload_Data : string }.

Record Acknowledgement := mkAcknowledgement {
  Acknowledgement_SessionId : SessionId;
  Acknowledgement_Sequence : list Z }.

(** Modelled from the spec: [ctrl_pb.Route] is declared in package ctrl_pb,
    not in forwarder.go; section 6 gives the route message as a session
    identifier and a list of forwards, each a source and a destination
    address. *)
Record Route_Forward := mkForward {
  SrcAddress : string;
  DstAddress : string }.

Record Route_msg := mkRoute {
  Route_SessionId : SessionId;
  Route_Forwards : list Route_Forward }.

(** Modelled from the spec: the implementations of the [Destination]
    interface are declared in other packages, not in forwarder.go; section 3
    gives its two variants, an xgress endpoint, which also implements
    [XgressDestination], and a link ([xlink.Xlink], registered under its
    identity token), which does not (it has no [Unrouted]). *)
Record Xgress := mkXgress {
  Label : string;
  IsTerminator : bool }.

Record Xlink := mkXlink {
  Id_Token : string }.

Inductive Destination :=
| DestXgress (x : Xgress)
| DestXlink (l : Xlink).

(** The type assertion [destination.(XgressDestination)]: [None] is the
    run-time panic of a failed single-value assertion. *)
Definition asXgressDestination (d : Destination) : option Xgress :=
  match d with
  | DestXgress x => Some x
  | DestXlink _ => None
  end.

(** What the methods of the [Destination] interface answer: they belong to the
    endpoints, outside the forwarder. *)
Class DestinationMethods := {
  SendPayload : Destination -> Payload -> option error;
  SendAcknowledgement : Destination -> Acknowledgement -> option error }.

(** [time.Duration] and the millisecond clock are [int64]: arithmetic wraps
    around, and [time.Millisecond] is 10^6 nanoseconds. *)
Definition int64 (z : Z) : Z := (z + 2 ^ 63) mod 2 ^ 64 - 2 ^ 63.
Definition Millisecond : Z := 1000000.

(** Modelled from the spec: [Options] is declared in another file of the
    package; section 6 gives [XgressCloseCheckInterval] as a duration. *)
Record Options_t := mkOptions {
  XgressCloseCheckInterval : Z }.

(** ** The tables

    The methods of [forwardTable], [sessionTable] and [destinationTable] are
    defined in another file of the package. Sections 4.1 and 4.2 of the
    specification give their contracts, and each is modelled from them: the
    concurrent maps are finite maps, a write replaces the entry of its key. *)

Abbreviation forwardTable := (gmap string string) (only parsing).
Abbreviation sessionTable := (gmap string (gmap string string)) (only parsing).

Record destinationTable := mkDestinationTable {
  dt_destinations : gmap string Destination;
  dt_xgress : gmap string (list string) }.

(** Modelled from the spec: [newForwardTable], a forward table is created
    empty (section 3). *)
Definition newForwardTable : forwardTable := ∅.

(** Modelled from the spec: [forwardTable.setForwardAddress], last writer wins
    (section 4.2). *)
Definition setForwardAddress (src dst : Address) (ft : forwardTable) : forwardTable :=
  <[src := dst]> ft.

(** Modelled from the spec: [forwardTable.getForwardAddress], the destination
    address and whether it was found (section 4.2). *)
Definition getForwardAddress (src : Address) (ft : forwardTable) : option Address :=
  ft !! src.

(** Modelled from the spec: [sessionTable.getForwardTable], the hot-path read
    (section 4.2). *)
Definition st_getForwardTable (sessionId : SessionId) (st : sessionTable) : option forwardTable :=
  st !! sessionId.

(** Modelled from the spec: [sessionTable.setForwardTable], which stores the
    table under the session, keys unique (sections 3 and 4.3). *)
Definition st_setForwardTable (sessionId : SessionId) (ft : forwardTable) (st : sessionTable) : sessionTable :=
  <[sessionId := ft]> st.

(** Modelled from the spec: [sessionTable.removeForwardTable] (section 4.2). *)
Definition st_removeForwardTable (sessionId : SessionId) (st : sessionTable) : sessionTable :=
  delete sessionId st.

(** Modelled from the spec: [newDestinationTable], both maps empty. *)
Definition newDestinationTable : destinationTable :=
  mkDestinationTable ∅ ∅.

(** Modelled from the spec: [destinationTable.addDestination], an overwrite on
    key collision (section 4.1). *)
Definition dt_addDestination (addr : Address) (d : Destination) (dt : destinationTable) : destinationTable :=
  mkDestinationTable (<[addr := d]> (dt_destinations dt)) (dt_xgress dt).

(** Modelled from the spec: [destinationTable.getDestination], the destination
    and whether it was found (section 4.1). *)
Definition dt_getDestination (addr : Address) (dt : destinationTable) : option Destination :=
  dt_destinations dt !! addr.

(** Modelled from the spec: [destinationTable.removeDestination], which removes
    the address from the address map only (section 4.1). *)
Definition dt_removeDestination (addr : Address) (dt : destinationTable) : destinationTable :=
  mkDestinationTable (delete addr (dt_destinations dt)) (dt_xgress dt).

(** Modelled from the spec: the addresses of a session are an ordered set,
    duplicates collapsed (section 3). *)
Definition add_address (addr : Address) (addresses : list Address) : list Address :=
  if decide (addr ∈ addresses) then addresses else addresses ++ [addr].

(** Modelled from the spec: [destinationTable.linkDestinationToSession], which
    adds the address to the address set of the session (section 4.1). *)
Definition dt_linkDestinationToSession (sessionId : SessionId) (addr : Address) (dt : destinationTable) : destinationTable :=
  mkDestinationTable (dt_destinations dt)
    (<[sessionId := add_address addr (default [] (dt_xgress dt !! sessionId))]> (dt_xgress dt)).

(** Modelled from the spec: [destinationTable.getAddressesForSession], a
    snapshot of the addresses and whether the session was found
    (section 4.1). *)
Definition dt_getAddressesForSession (sessionId : SessionId) (dt : destinationTable) : option (list Address) :=
  dt_xgress dt !! sessionId.

(** Modelled from the spec: [destinationTable.unlinkSession], which removes the
    session from the index and does not touch the address map
    (section 4.1). *)
Definition dt_unlinkSession (sessionId : SessionId) (dt : destinationTable) : destinationTable :=
  mkDestinationTable (dt_destinations dt) (delete sessionId (dt_xgress dt)).

(** ** The forwarder and its effects *)

(** The fields of [Forwarder] the operations below use (the faulter, scanner,
    metrics registry and trace controller are collaborators they do not
    touch). *)
Record Forwarder := mkForwarder {
  sessions : sessionTable;
  destinations : destinationTable;
  Options : Options_t }.

Definition NewForwarder (options : Options_t) : Forwarder :=
  mkForwarder ∅ newDestinationTable options.

(** A call that leaves the forwarder: a method of a destination, a goroutine
    started with [go], or a line handed to the logger. *)
Inductive Task :=
| task_Unrouted (x : Xgress)
| task_unrouteTimeout (sessionId : SessionId) (interval : Z).

Inductive Event :=
| call_SendPayload (d : Destination) (p : Payload)
| call_SendAcknowledgement (d : Destination) (a : Acknowledgement)
| go (t : Task)
| log_Debug (msg : string).

(** A run-time panic unwinds the method; what it already wrote stays. *)
Inductive Panic :=
| interface_conversion (d : Destination)
| non_positive_interval.

Inductive Result (A : Type) :=
| Returned (a : A)
| Panicked (p : Panic).
Arguments Returned {A} a.
Arguments Panicked {A} p.

(** A method of [*Forwarder]: from the forwarder before the call to the
    outcome, the forwarder after it and the calls it made, in order. *)
Definition M (A : Type) : Type := Forwarder -> Result A * Forwarder * list Event.

Definition ret {A} (a : A) : M A := fun f => (Returned a, f, []).

Definition bind {A B} (m : M A) (k : A -> M B) : M B :=
  fun f =>
    match m f with
    | (Returned a, f1, ev1) =>
        match k a f1 with
        | (r, f2, ev2) => (r, f2, ev1 ++ ev2)
        end
    | (Panicked p, f1, ev1) => (Panicked p, f1, ev1)
    end.

Definition throw {A} (p : Panic) : M A := fun f => (Panicked p, f, []).
Definition emit (e : Event) : M unit := fun f => (Returned tt, f, [e]).
Definition gets {A} (g : Forwarder -> A) : M A := fun f => (Returned (g f), f, []).
Definition modify (g : Forwarder -> Forwarder) : M unit := fun f => (Returned tt, g f, []).

Notation "x <- m ;; k" := (bind m (fun x => k))
  (at level 20, m at level 99, k at level 200, only parsing).
Notation "m ;;; k" := (bind m (fun _ => k))
  (at level 100, k at level 200, only parsing, right associativity).

(** The parts of an outcome. *)
Definition result_of {A} (o : Result A * Forwarder * list Event) : Result A := o.1.1.
Definition state_of {A} (o : Result A * Forwarder * list Event) : Forwarder := o.1.2.
Definition events_of {A} (o : Result A * Forwarder * list Event) : list Event := o.2.

(** [for _, x := range xs { body }] *)
Fixpoint for_range {A} (xs : list A) (body : A -> M unit) : M unit :=
  match xs with
  | [] => ret tt
  | x :: rest => body x ;;; for_range rest body
  end.

(** The table methods, as the forwarder calls them on its two tables. *)
Definition getForwardTable (sessionId : SessionId) : M (option forwardTable) :=
  gets (fun f => st_getForwardTable sessionId (sessions f)).

Definition setForwardTable (sessionId : SessionId) (ft : forwardTable) : M unit :=
  modify (fun f => mkForwarder (st_setForwardTable sessionId ft (sessions f)) (destinations f) (Options f)).

Definition removeForwardTable (sessionId : SessionId) : M unit :=
  modify (fun f => mkForwarder (st_removeForwardTable sessionId (sessions f)) (destinations f) (Options f)).

Definition on_destinations (g : destinationTable -> destinationTable) : M unit :=
  modify (fun f => mkForwarder (sessions f) (g (destinations f)) (Options f)).

Definition addDestination (addr : Address) (d : Destination) : M unit :=
  on_destinations (dt_addDestination addr d).

Definition getDestination (addr : Address) : M (option Destination) :=
  gets (fun f => dt_getDestination addr (destinations f)).

Definition removeDestination (addr : Address) : M unit :=
  on_destinations (dt_removeDestination addr).

Definition linkDestinationToSession (sessionId : SessionId) (addr : Address) : M unit :=
  on_destinations (dt_linkDestinationToSession sessionId addr).

Definition getAddressesForSession (sessionId : SessionId) : M (option (list Address)) :=
  gets (fun f => dt_getAddressesForSession sessionId (destinations f)).

Definition unlinkSession (sessionId : SessionId) : M unit :=
  on_destinations (dt_unlinkSession sessionId).

(** [destination.(XgressDestination)], evaluated by the caller. *)
Definition assertXgressDestination (d : Destination) : M Xgress :=
  match asXgressDestination d with
  | Some x => ret x
  | None => throw (interface_conversion d)
  end.

(** ** The operations of the forwarder *)

Section forwarder.
Context `{DestinationMethods}.

Definition RegisterDestination (sessionId : SessionId) (address : Address) (destination : Destination) : M unit :=
  addDestination address destination ;;;
  linkDestinationToSession sessionId address.

(** The body of the [range] loop of [UnregisterDestinations]. The operand of
    the [go] statement, assertion included, is evaluated by the caller, after
    the destination has been removed. *)
Definition UnregisterDestinations_address (sessionId : SessionId) (address : Address) : M unit :=
  found <- getDestination address ;;
  match found with
  | Some destination =>
      emit (log_Debug ("unregistering destination [@/" +:+ address +:+ "] for [s/" +:+ sessionId +:+ "]")) ;;;
      removeDestination address ;;;
      x <- assertXgressDestination destination ;;
      emit (go (task_Unrouted x))
  | None =>
      emit (log_Debug ("no destinations found for [@/" +:+ address +:+ "] for [s/" +:+ sessionId +:+ "]"))
  end.

Definition UnregisterDestinations (sessionId : SessionId) : M unit :=
  found <- getAddressesForSession sessionId ;;
  match found with
  | Some addresses =>
      for_range addresses (UnregisterDestinations_address sessionId) ;;;
      unlinkSession sessionId
  | None =>
      emit (log_Debug ("found no addresses to unregister for [s/" +:+ sessionId +:+ "]"))
  end.

Definition HasDestination (address : Address) : M bool :=
  found <- getDestination address ;;
  ret (bool_decide (is_Some found)).

Definition RegisterLink (link : Xlink) : M unit :=
  addDestination (Id_Token link) (DestXlink link).

Definition UnregisterLink (link : Xlink) : M unit :=
  removeDestination (Id_Token link).

(** [Route] updates the table it found in place and stores it again; a forward
    table is reached through its session table entry only, so the pointer is
    modelled by the table it points to. *)
Definition Route (route : Route_msg) : M unit :=
  let sessionId := Route_SessionId route in
  found <- getForwardTable sessionId ;;
  let sessionFt :=
    match found with
    | Some ft => ft
    | None => newForwardTable
    end in
  let sessionFt :=
    fold_left (fun ft forward => setForwardAddress (SrcAddress forward) (DstAddress forward) ft)
      (Route_Forwards route) sessionFt in
  setForwardTable sessionId sessionFt.

Definition EndSession (sessionId : SessionId) : M unit :=
  UnregisterDestinations sessionId.

Definition Unroute (sessionId : SessionId) (now : bool) : M unit :=
  if now then
    removeForwardTable sessionId ;;;
    EndSession sessionId
  else
    interval <- gets (fun f => XgressCloseCheckInterval (Options f)) ;;
    emit (go (task_unrouteTimeout sessionId interval)).

Definition ForwardPayload (srcAddr : Address) (payload : Payload) : M (option error) :=
  let sessionId := Payload_SessionId payload in
  found <- getForwardTable sessionId ;;
  match found with
  | Some forwardTable =>
      match getForwardAddress srcAddr forwardTable with
      | Some dstAddr =>
          found <- getDestination dstAddr ;;
          match found with
          | Some dst =>
              emit (call_SendPayload dst payload) ;;;
              match SendPayload dst payload with
              | Some err => ret (Some err)
              | None => emit (log_Debug ("=> " +:+ dstAddr)) ;;; ret None
              end
          | None =>
              ret (Some (Errorf ("cannot forward payload, no destination for session=" +:+ sessionId
                                 +:+ " src=" +:+ srcAddr +:+ " dst=" +:+ dstAddr)))
          end
      | None =>
          ret (Some (Errorf ("cannot forward payload, no destination address for session=" +:+ sessionId
                             +:+ " src=" +:+ srcAddr)))
      end
  | None =>
      ret (Some (Errorf ("cannot forward payload, no forward table for session=" +:+ sessionId
                         +:+ " src=" +:+ srcAddr)))
  end.

Definition ForwardAcknowledgement (srcAddr : Address) (acknowledgement : Acknowledgement) : M (option error) :=
  let sessionId := Acknowledgement_SessionId acknowledgement in
  found <- getForwardTable sessionId ;;
  match found with
  | Some forwardTable =>
      match getForwardAddress srcAddr forwardTable with
      | Some dstAddr =>
          found <- getDestination dstAddr ;;
          match found with
          | Some dst =>
              emit (call_SendAcknowledgement dst acknowledgement) ;;;
              match SendAcknowledgement dst acknowledgement with
              | Some err => ret (Some err)
              | None => emit (log_Debug ("=> " +:+ dstAddr)) ;;; ret None
              end
          | None =>
              ret (Some (Errorf ("cannot acknowledge, no destination for session=" +:+ sessionId
                                 +:+ " src=" +:+ srcAddr +:+ " dst=" +:+ dstAddr)))
          end
      | None =>
          ret (Some (Errorf ("cannot acknowledge, no destination address for session=" +:+ sessionId
                             +:+ " src=" +:+ srcAddr)))
      end
  | None =>
      ret (Some (Errorf ("cannot acknowledge, no forward table for session=" +:+ sessionId
                         +:+ " src=" +:+ srcAddr)))
  end.

(** The loop of [getXgressForSession]: the first address that resolves
    decides, by an unchecked assertion; [None] is the [nil] result. *)
Fixpoint getXgressForSession_range (addresses : list Address) : M (option Xgress) :=
  match addresses with
  | [] => ret None
  | address :: rest =>
      found <- getDestination address ;;
      match found with
      | Some destination =>
          x <- assertXgressDestination destination ;;
          ret (Some x)
      | None => getXgressForSession_range rest
      end
  end.

Definition getXgressForSession (sessionId : SessionId) : M (option Xgress) :=
  found <- getAddressesForSession sessionId ;;
  match found with
  | Some addresses => getXgressForSession_range addresses
  | None => ret None
  end.

(** *** The unroute timeout worker

    What the [select] of [unrouteTimeout] receives: a tick of its ticker,
    with the two clock readings the tick makes ([info.NowInMilliseconds] and
    the [GetTimeOfLastRxFromLink] of an xgress), or the close of
    [CloseNotify]. *)
Inductive Select :=
| ticker_C (now : Z) (lastRx : Xgress -> Z)
| CloseNotify.

(** Where a worker stands: still waiting in its [select], or returned after
    removing the session, or returned on the close signal. *)
Inductive Worker :=
| Scheduled
| Reaped
| Cancelled.

(** The body of [case <-ticker.C]. *)
Definition unrouteTimeout_tick (sessionId : SessionId) (interval : Z) (now : Z) (lastRx : Xgress -> Z) : M Worker :=
  dest <- getXgressForSession sessionId ;;
  match dest with
  | Some dest =>
      let elapsedDelta := int64 (now - lastRx dest) in
      if bool_decide (interval <= int64 (elapsedDelta * Millisecond)) then
        removeForwardTable sessionId ;;;
        EndSession sessionId ;;;
        ret Reaped
      else ret Scheduled
  | None =>
      removeForwardTable sessionId ;;;
      EndSession sessionId ;;;
      ret Reaped
  end.

(** The [for { select { ... } }] loop, run on what the [select] receives. *)
Fixpoint unrouteTimeout_loop (sessionId : SessionId) (interval : Z) (received : list Select) : M Worker :=
  match received with
  | [] => ret Scheduled
  | ticker_C now lastRx :: rest =>
      w <- unrouteTimeout_tick sessionId interval now lastRx ;;
      match w with
      | Scheduled => unrouteTimeout_loop sessionId interval rest
      | _ => ret w
      end
  | CloseNotify :: _ => ret Cancelled
  end.

(** [unrouteTimeout]: the two log lines around the loop (the second one
    deferred, so it is written when the function returns or panics) and the
    ticker, which [time.NewTicker] refuses for a non-positive interval. *)
Definition unrouteTimeout (sessionId : SessionId) (interval : Z) (received : list Select) : M Worker :=
  fun f =>
    match (emit (log_Debug "scheduled") ;;;
           if bool_decide (interval <= 0) then throw non_positive_interval
           else unrouteTimeout_loop sessionId interval received) f with
    | (Returned Scheduled, f', ev) => (Returned Scheduled, f', ev)
    | (r, f', ev) => (r, f', ev ++ [log_Debug "timeout"])
    end.

(** *** Calls

    The calls the forwarder receives, and a history of calls run one after
    the other on the tables each one leaves. *)
Inductive Call :=
| call_RegisterDestination (sessionId : SessionId) (address : Address) (destination : Destination)
| call_UnregisterDestinations (sessionId : SessionId)
| call_HasDestination (address : Address)
| call_RegisterLink (link : Xlink)
| call_UnregisterLink (link : Xlink)
| call_Route (route : Route_msg)
| call_Unroute (sessionId : SessionId) (now : bool)
| call_EndSession (sessionId : SessionId)
| call_ForwardPayload (srcAddr : Address) (payload : Payload)
| call_ForwardAcknowledgement (srcAddr : Address) (acknowledgement : Acknowledgement)
| call_unrouteTimeout (sessionId : SessionId) (interval : Z) (received : list Select).

Definition run_call (c : Call) (f : Forwarder) : Forwarder :=
  match c with
  | call_RegisterDestination s a d => state_of (RegisterDestination s a d f)
  | call_UnregisterDestinations s => state_of (UnregisterDestinations s f)
  | call_HasDestination a => state_of (HasDestination a f)
  | call_RegisterLink l => state_of (RegisterLink l f)
  | call_UnregisterLink l => state_of (UnregisterLink l f)
  | call_Route r => state_of (Route r f)
  | call_Unroute s now => state_of (Unroute s now f)
  | call_EndSession s => state_of (EndSession s f)
  | call_ForwardPayload a p => state_of (ForwardPayload a p f)
  | call_ForwardAcknowledgement a k => state_of (ForwardAcknowledgement a k f)
  | call_unrouteTimeout s i received => state_of (unrouteTimeout s i received f)
  end.

Definition run_calls (cs : list Call) (f : Forwarder) : Forwarder :=
  fold_left (fun f c => run_call c f) cs f.

End forwarder.


(** ** Notions the properties are stated with *)

(** The strict lookup chain of the data path, on the bare tables: session,
    then source address, then destination address, then destination. *)
Inductive Resolution :=
| NoForwardTable
| NoForwardAddress
| NoDestination (dstAddr : Address)
| Resolved (dstAddr : Address) (dst : Destination).

Definition lookup_chain (f : Forwarder) (sessionId : SessionId) (srcAddr : Address) : Resolution :=
  match sessions f !! sessionId with
  | None => NoForwardTable
  | Some ft =>
      match ft !! srcAddr with
      | None => NoForwardAddress
      | Some dstAddr =>
          match dt_destinations (destinations f) !! dstAddr with
          | None => NoDestination dstAddr
          | Some dst => Resolved dstAddr dst
          end
      end
  end.

Definition is_miss (r : Resolution) : bool :=
  match r with
  | Resolved _ _ => false
  | _ => true
  end.

(** The three lookup errors of [ForwardPayload] and of
    [ForwardAcknowledgement] ([what] is the verb of the message). *)
Definition no_forward_table (what : string) (sessionId : SessionId) (srcAddr : Address) : error :=
  Errorf (what +:+ ", no forward table for session=" +:+ sessionId +:+ " src=" +:+ srcAddr).

Definition no_destination_address (what : string) (sessionId : SessionId) (srcAddr : Address) : error :=
  Errorf (what +:+ ", no destination address for session=" +:+ sessionId +:+ " src=" +:+ srcAddr).

Definition no_destination (what : string) (sessionId : SessionId) (srcAddr dstAddr : Address) : error :=
  Errorf (what +:+ ", no destination for session=" +:+ sessionId +:+ " src=" +:+ srcAddr
          +:+ " dst=" +:+ dstAddr).

(** The goroutines a method started, in order. *)
Definition spawned (evs : list Event) : list Task :=
  omap (fun e => match e with go t => Some t | _ => None end) evs.

(** A computation keeps [P] when it leaves [P] true of the forwarder, whatever
    its outcome. *)
Definition keeps {A} (P : Forwarder -> Prop) (m : M A) : Prop :=
  forall f, P f -> P (state_of (m f)).

(** The forwarder with its address to destination map replaced. *)
Definition set_dt_destinations (ds : gmap string Destination) (f : Forwarder) : Forwarder :=
  mkForwarder (sessions f) (mkDestinationTable ds (dt_xgress (destinations f))) (Options f).

(** The addresses of a list that resolve to a destination when their turn
    comes in a loop that removes each destination it finds: every resolving
    address once, at its first occurrence. *)
Fixpoint found_destinations (ds : gmap string Destination) (addresses : list Address) : list (Address * Destination) :=
  match addresses with
  | [] => []
  | address :: rest =>
      match ds !! address with
      | Some d => (address, d) :: found_destinations (delete address ds) rest
      | None => found_destinations ds rest
      end
  end.

Definition remove_all (addresses : list Address) (ds : gmap string Destination) : gmap string Destination :=
  fold_left (fun m a => delete a m) addresses ds.

(** The first address of a list that resolves to a destination. *)
Fixpoint first_found (ds : gmap string Destination) (addresses : list Address) : option Destination :=
  match addresses with
  | [] => None
  | address :: rest =>
      match ds !! address with
      | Some d => Some d
      | None => first_found ds rest
      end
  end.


(** The Reap state of the worker as section 4.7 of the specification words it:
    remove the forward table, end the session, stop. *)
Definition spec_Reap (sessionId : SessionId) : M Worker :=
  removeForwardTable sessionId ;;;
  EndSession sessionId ;;;
  ret Reaped.

(** The addresses linked to a session (none when the session is not in the
    index). *)
Definition linked_addresses (f : Forwarder) (sessionId : SessionId) : list Address :=
  default [] (dt_xgress (destinations f) !! sessionId).

Definition panics {A} (o : Result A * Forwarder * list Event) : Prop :=
  exists p, result_of o = Panicked p.

(** The values an [int64] holds. *)
Definition fits_int64 (z : Z) : Prop := - 2 ^ 63 <= z < 2 ^ 63.

(** A call that installs a route for the session. *)
Definition installs_route (sessionId : SessionId) (c : Call) : bool :=
  match c with
  | call_Route route => bool_decide (Route_SessionId route = sessionId)
  | _ => false
  end.

(** The session has no forward table. *)
Definition unrouted (sessionId : SessionId) (f : Forwarder) : Prop :=
  sessions f !! sessionId = None.

(** Last writer wins: the destination address of the last forward of a route
    message for a source address, if the message has one. *)
Fixpoint last_forward (src : Address) (forwards : list Route_Forward) : option Address :=
  match forwards with
  | [] => None
  | forward :: rest =>
      match last_forward src rest with
      | Some dst => Some dst
      | None => if decide (SrcAddress forward = src) then Some (DstAddress forward) else None
      end
  end.

(** *** Invariant I1 at the grain of the table methods

    The destination table changes by four atomic methods; a history is the
    order in which the concurrent map ran them, whichever calls they came
    from. *)
Inductive dtAction :=
| act_addDestination (addr : Address) (d : Destination)
| act_linkDestinationToSession (sessionId : SessionId) (addr : Address)
| act_removeDestination (addr : Address)
| act_unlinkSession (sessionId : SessionId).

Definition dt_step (act : dtAction) (dt : destinationTable) : destinationTable :=
  match act with
  | act_addDestination addr d => dt_addDestination addr d dt
  | act_linkDestinationToSession sessionId addr => dt_linkDestinationToSession sessionId addr dt
  | act_removeDestination addr => dt_removeDestination addr dt
  | act_unlinkSession sessionId => dt_unlinkSession sessionId dt
  end.

Definition dt_run (history : list dtAction) (dt : destinationTable) : destinationTable :=
  fold_left (fun dt act => dt_step act dt) history dt.

(** Every link of an address comes after an add of that address, as in
    [RegisterDestination] ([added] are the addresses added so far). *)
Fixpoint adds_before_links (added : list Address) (history : list dtAction) : bool :=
  match history with
  | [] => true
  | act_addDestination addr _ :: rest => adds_before_links (addr :: added) rest
  | act_linkDestinationToSession _ addr :: rest =>
      bool_decide (addr ∈ added) && adds_before_links added rest
  | _ :: rest => adds_before_links added rest
  end.

(** An address is torn down when the last thing done to its entry of the
    address map was to remove it. *)
Definition torn_down_step (addr : Address) (b : bool) (act : dtAction) : bool :=
  match act with
  | act_addDestination a _ => if decide (a = addr) then false else b
  | act_removeDestination a => if decide (a = addr) then true else b
  | _ => b
  end.

Definition torn_down (addr : Address) (history : list dtAction) : bool :=
  fold_left (torn_down_step addr) history false.



(** ** Scenarios

    The endpoints and tables of the scenarios of the specification: two
    xgress endpoints A and B at the addresses a and b of session s1, routed to
    each other, and a link with identity token t1 whose sends fail. *)
Definition scenario_methods : DestinationMethods :=
  {| SendPayload := fun d _ =>
       match d with
       | DestXlink _ => Some (Errorf "link closed")
       | DestXgress _ => None
       end;
     SendAcknowledgement := fun _ _ => None |}.

Definition xgress_A : Xgress := mkXgress "A" false.
Definition xgress_B : Xgress := mkXgress "B" true.
Definition link_L : Xlink := mkXlink "t1".

Definition scenario_options : Options_t := mkOptions 5000000000.

Definition route_s1 : Route_msg :=
  mkRoute "s1" [mkForward "a" "b"; mkForward "b" "a"].

Definition payload_s1 : Payload := mkPayload "s1" 0 "hello".
Definition ack_s1 : Acknowledgement := mkAcknowledgement "s1" [0].

(** Scenario S1. *)
Definition forwarder_S1 : Forwarder :=
  @run_calls scenario_methods
    [call_RegisterDestination "s1" "a" (DestXgress xgress_A);
     call_RegisterDestination "s1" "b" (DestXgress xgress_B);
     call_Route route_s1]
    (NewForwarder scenario_options).

(** S1 with the link registered under the session as well, last. *)
Definition forwarder_link_last : Forwarder :=
  @run_calls scenario_methods
    [call_RegisterDestination "s1" "t1" (DestXlink link_L)]
    forwarder_S1.


(** Calls that install no route for s1. *)
Definition later_calls : list Call :=
  [call_ForwardPayload "a" payload_s1;
   call_RegisterDestination "s1" "a" (DestXgress xgress_A);
   call_Route (mkRoute "s2" [mkForward "a" "b"]);
   call_Unroute "s1" false;
   call_unrouteTimeout "s1" 1000000000 [ticker_C 2000 (fun _ => 500)];
   call_RegisterLink link_L].


(** ** Notions for the further properties *)

(** The destinations a method sent to, in order. *)
Definition sent_to (evs : list Event) : list Destination :=
  omap (fun e =>
          match e with
          | call_SendPayload d _ | call_SendAcknowledgement d _ => Some d
          | _ => None
          end) evs.

(** A call of the data path. *)
Definition is_forward (c : Call) : bool :=
  match c with
  | call_ForwardPayload _ _ | call_ForwardAcknowledgement _ _ => true
  | _ => false
  end.

(** The calls that register a list of xgress endpoints, each at its address,
    under one session. *)
Definition registrations (sessionId : SessionId) (endpoints : list (Address * Xgress)) : list Call :=
  (fun ax => call_RegisterDestination sessionId ax.1 (DestXgress ax.2)) <$> endpoints.

(** A tick that comes before the xgress has been idle for the interval (and
    whose elapsed milliseconds are a [time.Duration]). *)
Definition early_tick (interval : Z) (x : Xgress) (received : Select) : Prop :=
  match received with
  | ticker_C now lastRx =>
      fits_int64 ((now - lastRx x) * Millisecond) /\ (now - lastRx x) * Millisecond < interval
  | CloseNotify => False
  end.

(** *** The discipline under which the type assertions hold

    Every destination that resolves from an address linked to a session is an
    xgress. *)
Definition all_xgress (f : Forwarder) : Prop :=
  forall s a d,
    a ∈ linked_addresses f s ->
    dt_destinations (destinations f) !! a = Some d ->
    is_Some (asXgressDestination d).

(** How the callers keep it so: [RegisterDestination] is given xgress
    endpoints only, and a link is registered under a token that is not an
    address linked to a session. A worker is started with a positive
    interval. *)
Definition well_used (c : Call) (f : Forwarder) : Prop :=
  match c with
  | call_RegisterDestination _ _ d => is_Some (asXgressDestination d)
  | call_RegisterLink link =>
      map_Forall (fun _ addresses => Id_Token link ∉ addresses) (dt_xgress (destinations f))
  | call_unrouteTimeout _ interval _ => 0 < interval
  | _ => True
  end.

Fixpoint well_used_history `{DestinationMethods} (history : list Call) (f : Forwarder) : Prop :=
  match history with
  | [] => True
  | c :: rest => well_used c f /\ well_used_history rest (run_call c f)
  end.

(** The panic a method ended in, if it did. *)
Definition panic_of {A} (o : Result A * Forwarder * list Event) : option Panic :=
  match result_of o with
  | Returned _ => None
  | Panicked p => Some p
  end.

Definition call_panic `{DestinationMethods} (c : Call) (f : Forwarder) : option Panic :=
  match c with
  | call_RegisterDestination s a d => panic_of (RegisterDestination s a d f)
  | call_UnregisterDestinations s => panic_of (UnregisterDestinations s f)
  | call_HasDestination a => panic_of (HasDestination a f)
  | call_RegisterLink l => panic_of (RegisterLink l f)
  | call_UnregisterLink l => panic_of (UnregisterLink l f)
  | call_Route r => panic_of (Route r f)
  | call_Unroute s now => panic_of (Unroute s now f)
  | call_EndSession s => panic_of (EndSession s f)
  | call_ForwardPayload a p => panic_of (ForwardPayload a p f)
  | call_ForwardAcknowledgement a k => panic_of (ForwardAcknowledgement a k f)
  | call_unrouteTimeout s i received => panic_of (unrouteTimeout s i received f)
  end.

(** A tick that comes when the xgress has been idle for the interval or
    longer (and whose elapsed milliseconds are a [time.Duration]). *)
Definition late_tick (interval : Z) (x : Xgress) (now : Z) (lastRx : Xgress -> Z) : Prop :=
  fits_int64 ((now - lastRx x) * Millisecond) /\ interval <= (now - lastRx x) * Millisecond.

(** *** Scenarios for the further properties *)

(** Traffic on the tables of S1: delivered, unmapped source, unknown
    session. *)
Definition traffic_s1 : list Call :=
  [call_ForwardPayload "a" payload_s1;
   call_ForwardAcknowledgement "c" ack_s1;
   call_ForwardPayload "a" (mkPayload "s9" 1 "lost")].

(** The two endpoints of S1 with their addresses. *)
Definition endpoints_s1 : list (Address * Xgress) :=
  [("a", xgress_A); ("b", xgress_B)].

(** The endpoint A registered at the address a under two sessions. *)
Definition forwarder_shared : Forwarder :=
  @run_calls scenario_methods
    [call_RegisterDestination "s1" "a" (DestXgress xgress_A);
     call_RegisterDestination "s2" "a" (DestXgress xgress_A)]
    (NewForwarder scenario_options).

(** Two ticks within a second of the last receive of the xgress. *)
Definition early_ticks : list Select :=
  [ticker_C 1000 (fun _ => 500); ticker_C 1200 (fun _ => 800)].

(** A history that keeps the discipline of the callers: endpoints under the
    session, the link under its token, traffic, and the session torn down
    three times over. *)
Definition disciplined_calls : list Call :=
  [call_RegisterDestination "s1" "a" (DestXgress xgress_A);
   call_RegisterDestination "s1" "b" (DestXgress xgress_B);
   call_RegisterLink link_L;
   call_Route route_s1;
   call_ForwardPayload "a" payload_s1;
   call_Unroute "s1" false;
   call_unrouteTimeout "s1" 1000000000 [ticker_C 2000 (fun _ => 500)];
   call_unrouteTimeout "s1" 1000000000 [ticker_C 3000 (fun _ => 500)];
   call_Unroute "s1" true].

(** * Properties *)

(** ** The monad *)

Lemma bind_Returned {A B} (m : M A) (k : A -> M B) f a f1 ev1 :
  m f = (Returned a, f1, ev1) ->
  bind m k f = ((k a f1).1.1, (k a f1).1.2, ev1 ++ (k a f1).2).
Proof. intros E. unfold bind. rewrite E. by destruct (k a f1) as [[r f2] ev2]. Qed.

Lemma bind_Panicked {A B} (m : M A) (k : A -> M B) f p f1 ev1 :
  m f = (Panicked p, f1, ev1) ->
  bind m k f = (Panicked p, f1, ev1).
Proof. intros E. unfold bind. by rewrite E. Qed.

Lemma keeps_ret {A} P (a : A) : keeps P (ret a).
Proof. by intros f. Qed.

Lemma keeps_throw {A} P p : keeps P (@throw A p).
Proof. by intros f. Qed.

Lemma keeps_emit P e : keeps P (emit e).
Proof. by intros f. Qed.

Lemma keeps_gets {A} P (g : Forwarder -> A) : keeps P (gets g).
Proof. by intros f. Qed.

Lemma keeps_modify (P : Forwarder -> Prop) g : (forall f, P f -> P (g f)) -> keeps P (modify g).
Proof. intros Hg f Hf. by apply Hg. Qed.

Lemma keeps_bind {A B} P (m : M A) (k : A -> M B) :
  keeps P m -> (forall a, keeps P (k a)) -> keeps P (bind m k).
Proof.
  intros Hm Hk f Hf. specialize (Hm f Hf). unfold bind, state_of in *.
  destruct (m f) as [[[a|p] f1] ev1]; simpl in *; [|done].
  specialize (Hk a f1 Hm). by destruct (k a f1) as [[r f2] ev2].
Qed.

Lemma keeps_for_range {A} P (xs : list A) (body : A -> M unit) :
  (forall x, keeps P (body x)) -> keeps P (for_range xs body).
Proof.
  intros Hb. induction xs as [|x xs IH]; simpl.
  - apply keeps_ret.
  - apply keeps_bind; [apply Hb | by intros _].
Qed.

Create HintDb keeps.
#[local] Hint Resolve keeps_ret keeps_throw keeps_emit keeps_gets : keeps.

(** One step through a computation: close a leaf (from the hint database, or
    a table reader that unfolds to one), or open a bind or a loop. *)
Ltac keeps_step :=
  first [ solve [auto with keeps]
        | apply keeps_gets | apply keeps_emit | apply keeps_ret | apply keeps_throw
        | apply keeps_bind; [|intros ?]
        | apply keeps_for_range; intros ? ].

Section properties.
Context `{DestinationMethods}.

(** ** The data path *)

Lemma ForwardPayload_unfold srcAddr payload f :
  ForwardPayload srcAddr payload f =
  match lookup_chain f (Payload_SessionId payload) srcAddr with
  | NoForwardTable =>
      (Returned (Some (no_forward_table "cannot forward payload" (Payload_SessionId payload) srcAddr)), f, [])
  | NoForwardAddress =>
      (Returned (Some (no_destination_address "cannot forward payload" (Payload_SessionId payload) srcAddr)), f, [])
  | NoDestination dstAddr =>
      (Returned (Some (no_destination "cannot forward payload" (Payload_SessionId payload) srcAddr dstAddr)), f, [])
  | Resolved dstAddr dst =>
      (Returned (SendPayload dst payload), f,
       call_SendPayload dst payload ::
       match SendPayload dst payload with
       | Some _ => []
       | None => [log_Debug ("=> " +:+ dstAddr)]
       end)
  end.
Proof.
  unfold ForwardPayload, lookup_chain, bind, getForwardTable, getDestination, gets,
    st_getForwardTable, getForwardAddress, dt_getDestination. simpl.
  destruct (sessions f !! Payload_SessionId payload) as [ft|]; [|done].
  destruct (ft !! srcAddr) as [dstAddr|]; [|done].
  destruct (dt_destinations (destinations f) !! dstAddr) as [dst|]; [|done].
  simpl. by destruct (SendPayload dst payload).
Qed.

Lemma ForwardAcknowledgement_unfold srcAddr ack f :
  ForwardAcknowledgement srcAddr ack f =
  match lookup_chain f (Acknowledgement_SessionId ack) srcAddr with
  | NoForwardTable =>
      (Returned (Some (no_forward_table "cannot acknowledge" (Acknowledgement_SessionId ack) srcAddr)), f, [])
  | NoForwardAddress =>
      (Returned (Some (no_destination_address "cannot acknowledge" (Acknowledgement_SessionId ack) srcAddr)), f, [])
  | NoDestination dstAddr =>
      (Returned (Some (no_destination "cannot acknowledge" (Acknowledgement_SessionId ack) srcAddr dstAddr)), f, [])
  | Resolved dstAddr dst =>
      (Returned (SendAcknowledgement dst ack), f,
       call_SendAcknowledgement dst ack ::
       match SendAcknowledgement dst ack with
       | Some _ => []
       | None => [log_Debug ("=> " +:+ dstAddr)]
       end)
  end.
Proof.
  unfold ForwardAcknowledgement, lookup_chain, bind, getForwardTable, getDestination, gets,
    st_getForwardTable, getForwardAddress, dt_getDestination. simpl.
  destruct (sessions f !! Acknowledgement_SessionId ack) as [ft|]; [|done].
  destruct (ft !! srcAddr) as [dstAddr|]; [|done].
  destruct (dt_destinations (destinations f) !! dstAddr) as [dst|]; [|done].
  simpl. by destruct (SendAcknowledgement dst ack).
Qed.

(** C1. [ForwardPayload] follows the strict lookup chain session, source
    address, destination address, destination: a payload whose session has no
    forward table fails with the "no forward table" error, one whose source
    address is unmapped with the "no destination address" error, one whose
    destination address has no registered destination with the "no
    destination" error, each without a send and with the tables as they were;
    otherwise the payload is handed to the destination's [SendPayload], once,
    and the error of that call (or [nil]) is what [ForwardPayload] returns. *)
Theorem ForwardPayload_lookup_chain (srcAddr : Address) (payload : Payload) (f : Forwarder) :
  let sessionId := Payload_SessionId payload in
  ForwardPayload srcAddr payload f =
  match sessions f !! sessionId with
  | None =>
      (Returned (Some (Errorf ("cannot forward payload, no forward table for session=" +:+ sessionId
                               +:+ " src=" +:+ srcAddr))), f, [])
  | Some ft =>
      match ft !! srcAddr with
      | None =>
          (Returned (Some (Errorf ("cannot forward payload, no destination address for session="
                                   +:+ sessionId +:+ " src=" +:+ srcAddr))), f, [])
      | Some dstAddr =>
          match dt_destinations (destinations f) !! dstAddr with
          | None =>
              (Returned (Some (Errorf ("cannot forward payload, no destination for session=" +:+ sessionId
                                       +:+ " src=" +:+ srcAddr +:+ " dst=" +:+ dstAddr))), f, [])
          | Some dst =>
              (Returned (SendPayload dst payload), f,
               call_SendPayload dst payload ::
               match SendPayload dst payload with
               | Some _ => []
               | None => [log_Debug ("=> " +:+ dstAddr)]
               end)
          end
      end
  end.
Proof.
  intros sessionId. rewrite ForwardPayload_unfold. unfold lookup_chain. fold sessionId.
  destruct (sessions f !! sessionId) as [ft|]; [|done].
  destruct (ft !! srcAddr) as [dstAddr|]; [|done].
  by destruct (dt_destinations (destinations f) !! dstAddr).
Qed.

(** C6. When the lookup chain of [ForwardPayload] or of
    [ForwardAcknowledgement] misses (no forward table, no destination address
    or no destination), the call returns an error, sends nothing, and leaves
    the session table, every forward table and the destination table exactly
    as they were. *)
Theorem forward_miss_leaves_tables (f : Forwarder) (sessionId : SessionId) (srcAddr : Address)
    (Hmiss : is_miss (lookup_chain f sessionId srcAddr) = true) :
  (forall payload, Payload_SessionId payload = sessionId ->
     exists err, ForwardPayload srcAddr payload f = (Returned (Some err), f, [])) /\
  (forall ack, Acknowledgement_SessionId ack = sessionId ->
     exists err, ForwardAcknowledgement srcAddr ack f = (Returned (Some err), f, [])).
Proof.
  split.
  - intros payload <-. rewrite ForwardPayload_unfold.
    destruct (lookup_chain f (Payload_SessionId payload) srcAddr); [eauto..|done].
  - intros ack <-. rewrite ForwardAcknowledgement_unfold.
    destruct (lookup_chain f (Acknowledgement_SessionId ack) srcAddr); [eauto..|done].
Qed.

(** ** Links *)

(** C10. After [UnregisterLink] the identity token of the link has no
    destination ([HasDestination] answers false), and neither [RegisterLink]
    nor [UnregisterLink] changes the session to addresses index (or the
    session table): a link is never linked to a session. *)
Theorem UnregisterLink_HasDestination (f : Forwarder) (link : Xlink) :
  let f' := state_of (UnregisterLink link f) in
  let f'' := state_of (RegisterLink link f) in
  UnregisterLink link f = (Returned tt, f', []) /\
  HasDestination (Id_Token link) f' = (Returned false, f', []) /\
  dt_xgress (destinations f') = dt_xgress (destinations f) /\
  sessions f' = sessions f /\
  RegisterLink link f = (Returned tt, f'', []) /\
  HasDestination (Id_Token link) f'' = (Returned true, f'', []) /\
  dt_xgress (destinations f'') = dt_xgress (destinations f) /\
  sessions f'' = sessions f.
Proof.
  repeat split;
    unfold HasDestination, bind, getDestination, gets, dt_getDestination; simpl.
  - by rewrite lookup_delete_eq.
  - by rewrite lookup_insert_eq.
Qed.

(** ** Unregistering the destinations of a session *)

Lemma found_destinations_elem ds addresses a d :
  (a, d) ∈ found_destinations ds addresses <-> a ∈ addresses /\ ds !! a = Some d.
Proof.
  revert ds. induction addresses as [|a0 rest IH]; intros ds; simpl.
  - split; [by intros ?%elem_of_nil | by intros [?%elem_of_nil _]].
  - destruct (ds !! a0) as [d0|] eqn:E0.
    + rewrite elem_of_cons, IH, elem_of_cons, lookup_delete_Some. split.
      * intros [[= -> ->]|(Hin & Hne & Hd)]; auto.
      * intros [[->|Hin] Hd].
        -- left. congruence.
        -- destruct (decide (a0 = a)) as [->|Hne]; [left; congruence | right; auto].
    + rewrite IH, elem_of_cons. split.
      * intros [Hin Hd]; auto.
      * intros [[->|Hin] Hd]; [congruence | auto].
Qed.


Lemma remove_all_lookup addresses ds a :
  remove_all addresses ds !! a = if decide (a ∈ addresses) then None else ds !! a.
Proof.
  unfold remove_all. revert ds. induction addresses as [|a0 rest IH]; intros ds; simpl.
  - destruct (decide (a ∈ [])) as [Hin|_]; [by apply elem_of_nil in Hin | done].
  - rewrite IH.
    destruct (decide (a ∈ rest)) as [Hin|Hnin], (decide (a ∈ a0 :: rest)) as [Hin'|Hnin'];
      try done.
    + exfalso. apply Hnin'. by right.
    + apply elem_of_cons in Hin' as [->|?]; [apply lookup_delete_eq | done].
    + apply lookup_delete_ne. intros ->. apply Hnin'. by left.
Qed.

Lemma UnregisterDestinations_address_run sessionId address f :
  UnregisterDestinations_address sessionId address f =
  match dt_destinations (destinations f) !! address with
  | None =>
      (Returned tt, f,
       [log_Debug ("no destinations found for [@/" +:+ address +:+ "] for [s/" +:+ sessionId +:+ "]")])
  | Some d =>
      let f' := set_dt_destinations (delete address (dt_destinations (destinations f))) f in
      let line := log_Debug ("unregistering destination [@/" +:+ address +:+ "] for [s/" +:+ sessionId +:+ "]") in
      match asXgressDestination d with
      | Some x => (Returned tt, f', [line; go (task_Unrouted x)])
      | None => (Panicked (interface_conversion d), f', [line])
      end
  end.
Proof.
  unfold UnregisterDestinations_address, bind, getDestination, gets, dt_getDestination. simpl.
  destruct (dt_destinations (destinations f) !! address) as [d|]; [|done].
  simpl. unfold assertXgressDestination. by destruct (asXgressDestination d).
Qed.

Lemma set_dt_destinations_twice ds1 ds2 f :
  set_dt_destinations ds2 (set_dt_destinations ds1 f) = set_dt_destinations ds2 f.
Proof. done. Qed.

Lemma set_dt_destinations_same f :
  set_dt_destinations (dt_destinations (destinations f)) f = f.
Proof. by destruct f as [st [ds xs] opts]. Qed.

Lemma spawned_app evs1 evs2 : spawned (evs1 ++ evs2) = spawned evs1 ++ spawned evs2.
Proof. apply omap_app. Qed.

(** The loop of [UnregisterDestinations] when every destination it finds is
    an xgress: it returns, every address of the list is gone from the address
    map, and one [Unrouted] goroutine was started per destination found. *)
Lemma UnregisterDestinations_range_returns sessionId addresses f :
  Forall (fun ad => is_Some (asXgressDestination ad.2))
    (found_destinations (dt_destinations (destinations f)) addresses) ->
  exists evs,
    for_range addresses (UnregisterDestinations_address sessionId) f =
      (Returned tt, set_dt_destinations (remove_all addresses (dt_destinations (destinations f))) f, evs) /\
    spawned evs =
      omap (fun ad => task_Unrouted <$> asXgressDestination ad.2)
        (found_destinations (dt_destinations (destinations f)) addresses).
Proof.
  revert f. induction addresses as [|a rest IH]; intros f Hall; simpl in Hall;
    cbn [for_range found_destinations].
  - exists []. unfold remove_all. simpl. by rewrite set_dt_destinations_same.
  - unfold bind. rewrite UnregisterDestinations_address_run.
    destruct (dt_destinations (destinations f) !! a) as [d|] eqn:E.
    + apply Forall_cons in Hall as [[x Hx] Hall]. simpl in Hx. rewrite Hx. simpl.
      destruct (IH (set_dt_destinations (delete a (dt_destinations (destinations f))) f) Hall)
        as (evs & -> & Hsp).
      eexists. split; [done|]. simpl in *. rewrite Hx. simpl. by f_equal.
    + destruct (IH f Hall) as (evs & -> & Hsp).
      assert (remove_all (a :: rest) (dt_destinations (destinations f)) =
              remove_all rest (dt_destinations (destinations f))) as ->
        by (unfold remove_all; simpl; by rewrite (delete_id _ _ E)).
      eexists. split; [done|]. exact Hsp.
Qed.

(** The same loop when some destination it finds is not an xgress: the failed
    assertion panics, after that destination was removed, and neither the
    session table nor the session to addresses index has changed. *)
Lemma UnregisterDestinations_range_panics sessionId addresses f :
  Exists (fun ad => asXgressDestination ad.2 = None)
    (found_destinations (dt_destinations (destinations f)) addresses) ->
  exists d ds evs,
    for_range addresses (UnregisterDestinations_address sessionId) f =
      (Panicked (interface_conversion d), set_dt_destinations ds f, evs) /\
    asXgressDestination d = None.
Proof.
  revert f. induction addresses as [|a rest IH]; intros f Hex; simpl in *.
  - by apply Exists_nil in Hex.
  - unfold bind. rewrite UnregisterDestinations_address_run.
    destruct (dt_destinations (destinations f) !! a) as [d|] eqn:E.
    + simpl. destruct (asXgressDestination d) as [x|] eqn:Hx.
      * apply Exists_cons in Hex as [Hex|Hex]; [simpl in Hex; congruence|].
        destruct (IH (set_dt_destinations (delete a (dt_destinations (destinations f))) f) Hex)
          as (d' & ds & evs & -> & Hd').
        rewrite set_dt_destinations_twice. by eexists d', ds, _.
      * by eexists d, _, _.
    + destruct (IH f Hex) as (d' & ds & evs & -> & Hd').
      by eexists d', ds, _.
Qed.

Lemma found_destinations_Forall_Exists ds addresses :
  Forall (fun ad => is_Some (asXgressDestination ad.2)) (found_destinations ds addresses) \/
  Exists (fun ad : Address * Destination => asXgressDestination ad.2 = None)
    (found_destinations ds addresses).
Proof.
  induction (found_destinations ds addresses) as [|[a d] l [IH|IH]].
  - left. constructor.
  - destruct (asXgressDestination d) eqn:E.
    + left. constructor; [by simpl; rewrite E | done].
    + right. by left.
  - right. by right.
Qed.

(** [UnregisterDestinations], case by case. *)
Lemma UnregisterDestinations_unlinked sessionId f :
  dt_xgress (destinations f) !! sessionId = None ->
  UnregisterDestinations sessionId f =
    (Returned tt, f, [log_Debug ("found no addresses to unregister for [s/" +:+ sessionId +:+ "]")]).
Proof.
  intros E. unfold UnregisterDestinations, bind, getAddressesForSession, gets,
    dt_getAddressesForSession. simpl. by rewrite E.
Qed.

Lemma UnregisterDestinations_linked sessionId f addresses :
  dt_xgress (destinations f) !! sessionId = Some addresses ->
  UnregisterDestinations sessionId f =
    (for_range addresses (UnregisterDestinations_address sessionId) ;;; unlinkSession sessionId) f.
Proof.
  intros E. unfold UnregisterDestinations at 1, bind at 1, getAddressesForSession, gets,
    dt_getAddressesForSession. simpl. rewrite E.
  by destruct ((for_range addresses (UnregisterDestinations_address sessionId) ;;;
                unlinkSession sessionId) f) as [[r f'] evs].
Qed.







Lemma UnregisterDestinations_returns sessionId f addresses :
  dt_xgress (destinations f) !! sessionId = Some addresses ->
  Forall (fun ad => is_Some (asXgressDestination ad.2))
    (found_destinations (dt_destinations (destinations f)) addresses) ->
  exists evs,
    UnregisterDestinations sessionId f =
      (Returned tt,
       mkForwarder (sessions f)
         (mkDestinationTable (remove_all addresses (dt_destinations (destinations f)))
            (delete sessionId (dt_xgress (destinations f))))
         (Options f),
       evs) /\
    spawned evs =
      omap (fun ad => task_Unrouted <$> asXgressDestination ad.2)
        (found_destinations (dt_destinations (destinations f)) addresses).
Proof.
  intros E Hall. rewrite (UnregisterDestinations_linked _ _ _ E).
  destruct (UnregisterDestinations_range_returns sessionId _ _ Hall) as (evs & Hrun & Hsp).
  rewrite (bind_Returned _ _ _ _ _ _ Hrun). simpl.
  eexists. split; [done|]. by rewrite app_nil_r.
Qed.

Lemma UnregisterDestinations_panics sessionId f addresses :
  dt_xgress (destinations f) !! sessionId = Some addresses ->
  Exists (fun ad => asXgressDestination ad.2 = None)
    (found_destinations (dt_destinations (destinations f)) addresses) ->
  exists d ds evs,
    UnregisterDestinations sessionId f =
      (Panicked (interface_conversion d), set_dt_destinations ds f, evs) /\
    asXgressDestination d = None.
Proof.
  intros E Hex. rewrite (UnregisterDestinations_linked _ _ _ E).
  destruct (UnregisterDestinations_range_panics sessionId addresses f Hex)
    as (d & ds & evs & Hrun & Hd).
  rewrite (bind_Panicked _ _ _ _ _ _ Hrun). by eexists d, ds, evs.
Qed.

Lemma UnregisterDestinations_panics_iff sessionId f :
  panics (UnregisterDestinations sessionId f) <->
  exists a d, a ∈ linked_addresses f sessionId /\
    dt_destinations (destinations f) !! a = Some d /\ asXgressDestination d = None.
Proof.
  unfold linked_addresses.
  destruct (dt_xgress (destinations f) !! sessionId) as [addrs|] eqn:E; simpl.
  - destruct (found_destinations_Forall_Exists (dt_destinations (destinations f)) addrs)
      as [Hall|Hex].
    + destruct (UnregisterDestinations_returns _ _ _ E Hall) as (evs & -> & _). split.
      * by intros [p Hp].
      * intros (a & d & Hin & Hd & Hx).
        eapply Forall_forall in Hall; [|by apply found_destinations_elem].
        simpl in Hall. destruct Hall. congruence.
    + destruct (UnregisterDestinations_panics _ _ _ E Hex) as (d & ds & evs & -> & Hd). split.
      * intros _.
        apply Exists_exists in Hex as ([a d'] & [Hin Hd']%found_destinations_elem & Hx).
        by exists a, d'.
      * intros _. by exists (interface_conversion d).
  - rewrite (UnregisterDestinations_unlinked _ _ E).
    split; [by intros [p Hp] | by intros (a & _ & ?%elem_of_nil & _)].
Qed.


(** ** Resolving the xgress of a session *)

Lemma first_found_elem ds addresses d :
  first_found ds addresses = Some d -> exists a, a ∈ addresses /\ ds !! a = Some d.
Proof.
  induction addresses as [|a0 rest IH]; simpl; [done|].
  destruct (ds !! a0) as [d0|] eqn:E.
  - intros [= ->]. exists a0. split; [left | done].
  - intros (a & Hin & Hd)%IH. exists a. split; [by right | done].
Qed.

Lemma first_found_None ds addresses :
  first_found ds addresses = None <-> forall a, a ∈ addresses -> ds !! a = None.
Proof.
  induction addresses as [|a0 rest IH]; simpl.
  - split; [by intros _ a ?%elem_of_nil | done].
  - destruct (ds !! a0) as [d0|] eqn:E.
    + split; [done|]. intros Hall. specialize (Hall a0 (list_elem_of_here _ _)). congruence.
    + rewrite IH. split.
      * intros Hall a [->|Hin]%elem_of_cons; auto.
      * intros Hall a Hin. apply Hall. by right.
Qed.

Lemma getXgressForSession_range_run addresses f :
  getXgressForSession_range addresses f =
  match first_found (dt_destinations (destinations f)) addresses with
  | None => (Returned None, f, [])
  | Some d =>
      match asXgressDestination d with
      | Some x => (Returned (Some x), f, [])
      | None => (Panicked (interface_conversion d), f, [])
      end
  end.
Proof.
  induction addresses as [|a rest IH]; simpl; [done|].
  unfold bind at 1, getDestination, gets, dt_getDestination. simpl.
  destruct (dt_destinations (destinations f) !! a) as [d|]; simpl.
  - unfold bind, assertXgressDestination. by destruct (asXgressDestination d).
  - rewrite IH.
    by destruct (first_found (dt_destinations (destinations f)) rest) as [d|];
      [destruct (asXgressDestination d)|].
Qed.

Lemma getXgressForSession_run sessionId f :
  getXgressForSession sessionId f =
  match first_found (dt_destinations (destinations f)) (linked_addresses f sessionId) with
  | None => (Returned None, f, [])
  | Some d =>
      match asXgressDestination d with
      | Some x => (Returned (Some x), f, [])
      | None => (Panicked (interface_conversion d), f, [])
      end
  end.
Proof.
  unfold getXgressForSession, bind, getAddressesForSession, gets, dt_getAddressesForSession,
    linked_addresses. simpl.
  destruct (dt_xgress (destinations f) !! sessionId) as [addresses|]; simpl; [|done].
  rewrite getXgressForSession_range_run.
  by destruct (first_found (dt_destinations (destinations f)) addresses) as [d|];
    [destruct (asXgressDestination d)|].
Qed.

(** C5, as the code has it. The two type assertions
    [destination.(XgressDestination)] are unchecked. [UnregisterDestinations]
    panics exactly when some address linked to the session resolves to a
    destination that is not an xgress; [getXgressForSession] stops at the first
    linked address that resolves and panics exactly when that destination is
    not an xgress. Neither panics while every destination reachable through
    the index of the session is an xgress. *)
Theorem type_assertions_unchecked (sessionId : SessionId) (f : Forwarder) :
  let ds := dt_destinations (destinations f) in
  let addresses := linked_addresses f sessionId in
  (panics (UnregisterDestinations sessionId f) <->
   exists a d, a ∈ addresses /\ ds !! a = Some d /\ asXgressDestination d = None) /\
  (panics (getXgressForSession sessionId f) <->
   exists d, first_found ds addresses = Some d /\ asXgressDestination d = None) /\
  (panics (getXgressForSession sessionId f) -> panics (UnregisterDestinations sessionId f)) /\
  ((forall a d, a ∈ addresses -> ds !! a = Some d -> is_Some (asXgressDestination d)) ->
   ~ panics (UnregisterDestinations sessionId f) /\ ~ panics (getXgressForSession sessionId f)).
Proof.
  intros ds addresses.
  pose proof (UnregisterDestinations_panics_iff sessionId f) as HU. fold ds addresses in HU.
  assert (panics (getXgressForSession sessionId f) <->
          exists d, first_found ds addresses = Some d /\ asXgressDestination d = None) as HG.
  { rewrite getXgressForSession_run. fold ds addresses.
    destruct (first_found ds addresses) as [d|]; [destruct (asXgressDestination d) eqn:E|].
    - split; [by intros [p Hp] | intros (d' & [= <-] & Hx); congruence].
    - split; [by exists d | by exists (interface_conversion d)].
    - split; [by intros [p Hp] | by intros (d' & Hd & _)]. }
  split_and!; [done | done | |].
  - rewrite HU, HG. intros (d & (a & Hin & Hd)%first_found_elem & Hx). by exists a, d.
  - intros Hall. split.
    + rewrite HU. intros (a & d & Hin & Hd & Hx).
      destruct (Hall a d Hin Hd) as [x Hx']. congruence.
    + rewrite HG. intros (d & (a & Hin & Hd)%first_found_elem & Hx).
      destruct (Hall a d Hin Hd) as [x Hx']. congruence.
Qed.

(** ** Unroute *)

Lemma Unroute_now_run sessionId f :
  Unroute sessionId true f =
  UnregisterDestinations sessionId
    (mkForwarder (delete sessionId (sessions f)) (destinations f) (Options f)).
Proof.
  unfold Unroute, EndSession, bind, removeForwardTable, modify, st_removeForwardTable. simpl.
  by destruct (UnregisterDestinations sessionId _) as [[r f'] evs].
Qed.

Lemma UnregisterDestinations_Returned sessionId f f1 evs :
  UnregisterDestinations sessionId f = (Returned tt, f1, evs) ->
  sessions f1 = sessions f /\ dt_xgress (destinations f1) !! sessionId = None.
Proof.
  destruct (dt_xgress (destinations f) !! sessionId) as [addrs|] eqn:E.
  - destruct (found_destinations_Forall_Exists (dt_destinations (destinations f)) addrs)
      as [Hall|Hex].
    + destruct (UnregisterDestinations_returns _ _ _ E Hall) as (evs' & -> & _).
      intros [= <- _]. simpl. by rewrite lookup_delete_eq.
    + by destruct (UnregisterDestinations_panics _ _ _ E Hex) as (d & ds & evs' & -> & _).
  - rewrite (UnregisterDestinations_unlinked _ _ E). by intros [= <- _].
Qed.

(** C8. When [Unroute(sessionId, true)] has returned, the session has neither
    a forward table nor linked addresses, so a second [Unroute(sessionId,
    true)] returns as well, leaves the forwarder exactly as it found it, starts
    no goroutine and writes one debug line. *)
Theorem Unroute_now_twice (sessionId : SessionId) (f f1 : Forwarder) (evs : list Event)
    (Hfirst : Unroute sessionId true f = (Returned tt, f1, evs)) :
  sessions f1 !! sessionId = None /\
  dt_getAddressesForSession sessionId (destinations f1) = None /\
  Unroute sessionId true f1 =
    (Returned tt, f1, [log_Debug ("found no addresses to unregister for [s/" +:+ sessionId +:+ "]")]).
Proof.
  rewrite Unroute_now_run in Hfirst.
  apply UnregisterDestinations_Returned in Hfirst as [Hst Hxs]. simpl in Hst.
  assert (sessions f1 !! sessionId = None) as Hnone by (rewrite Hst; apply lookup_delete_eq).
  split_and!; [done | done |].
  rewrite Unroute_now_run, (delete_id _ _ Hnone).
  destruct f1 as [st dt opts]. by apply UnregisterDestinations_unlinked.
Qed.

(** *** What keeps a session unrouted *)

Lemma keeps_on_destinations sessionId g : keeps (unrouted sessionId) (on_destinations g).
Proof. by apply keeps_modify. Qed.

Lemma keeps_removeForwardTable sessionId s : keeps (unrouted sessionId) (removeForwardTable s).
Proof.
  apply keeps_modify. intros f Hf. unfold unrouted, st_removeForwardTable in *. simpl.
  apply lookup_delete_None. by right.
Qed.

Lemma keeps_assertXgressDestination P d : keeps P (assertXgressDestination d).
Proof. unfold assertXgressDestination. destruct (asXgressDestination d); keeps_step. Qed.

Lemma keeps_UnregisterDestinations sessionId s :
  keeps (unrouted sessionId) (UnregisterDestinations s).
Proof.
  unfold UnregisterDestinations. keeps_step; [keeps_step|].
  destruct a as [addresses|]; [|keeps_step].
  keeps_step; [|apply keeps_on_destinations].
  keeps_step. unfold UnregisterDestinations_address.
  keeps_step; [keeps_step|]. destruct a as [d|]; [|keeps_step].
  keeps_step; [keeps_step|]. keeps_step; [apply keeps_on_destinations|].
  keeps_step; [apply keeps_assertXgressDestination | keeps_step].
Qed.

Lemma keeps_getXgressForSession P s : keeps P (getXgressForSession s).
Proof. intros f Hf. rewrite getXgressForSession_run. by repeat case_match. Qed.

Lemma keeps_unrouteTimeout_tick sessionId s interval now lastRx :
  keeps (unrouted sessionId) (unrouteTimeout_tick s interval now lastRx).
Proof.
  assert (keeps (unrouted sessionId)
            (removeForwardTable s ;;; EndSession s ;;; ret Reaped)) as Hreap.
  { keeps_step; [apply keeps_removeForwardTable|].
    keeps_step; [apply keeps_UnregisterDestinations | keeps_step]. }
  unfold unrouteTimeout_tick. keeps_step; [apply keeps_getXgressForSession|].
  destruct a as [x|]; [|done]. case_bool_decide; [done | keeps_step].
Qed.

Lemma keeps_unrouteTimeout_loop sessionId s interval received :
  keeps (unrouted sessionId) (unrouteTimeout_loop s interval received).
Proof.
  induction received as [|[now lastRx|] rest IH]; simpl; [keeps_step | | keeps_step].
  keeps_step; [apply keeps_unrouteTimeout_tick|]. destruct a; [done | keeps_step..].
Qed.

Lemma keeps_unrouteTimeout sessionId s interval received :
  keeps (unrouted sessionId) (unrouteTimeout s interval received).
Proof.
  assert (keeps (unrouted sessionId)
            (emit (log_Debug "scheduled") ;;;
             if bool_decide (interval <= 0) then throw non_positive_interval
             else unrouteTimeout_loop s interval received)) as Hbody.
  { keeps_step; [keeps_step|]. case_bool_decide; [keeps_step|].
    apply keeps_unrouteTimeout_loop. }
  intros f Hf. specialize (Hbody f Hf). unfold unrouteTimeout.
  match goal with
  | |- context [match ?o with _ => _ end] =>
      change (unrouted sessionId (state_of o)) in Hbody;
      destruct o as [[[[]|p] f'] evs]
  end; done.
Qed.

Lemma keeps_run_call sessionId c :
  installs_route sessionId c = false ->
  forall f, unrouted sessionId f -> unrouted sessionId (run_call c f).
Proof.
  intros Hc f Hf. destruct c; simpl in *.
  - done.
  - by apply keeps_UnregisterDestinations.
  - done.
  - done.
  - done.
  - apply bool_decide_eq_false in Hc. unfold unrouted in *. simpl.
    unfold st_setForwardTable. by rewrite lookup_insert_ne.
  - destruct now; [|done]. rewrite Unroute_now_run.
    apply keeps_UnregisterDestinations. unfold unrouted in *. simpl.
    apply lookup_delete_None. by right.
  - by apply keeps_UnregisterDestinations.
  - rewrite ForwardPayload_unfold. by repeat case_match.
  - rewrite ForwardAcknowledgement_unfold. by repeat case_match.
  - by apply keeps_unrouteTimeout.
Qed.

Lemma keeps_run_calls sessionId cs :
  Forall (fun c => installs_route sessionId c = false) cs ->
  forall f, unrouted sessionId f -> unrouted sessionId (run_calls cs f).
Proof.
  unfold run_calls. induction cs as [|c cs IH]; intros Hcs f Hf; simpl; [done|].
  apply Forall_cons in Hcs as [Hc Hcs]. apply IH; [done|]. by apply keeps_run_call.
Qed.

(** C2. After [Unroute(sessionId, true)] the session has no forward table,
    and through every history of later calls that installs no route for the
    session, [ForwardPayload] for a payload of the session fails with the "no
    forward table" error (and sends nothing); a [Route] for the session gives
    it a forward table again. *)
Theorem Unroute_now_no_forward_table (sessionId : SessionId) (f : Forwarder) (later : list Call)
    (srcAddr : Address) (payload : Payload)
    (Hsession : Payload_SessionId payload = sessionId)
    (Hlater : Forall (fun c => installs_route sessionId c = false) later) :
  let f1 := state_of (Unroute sessionId true f) in
  let f2 := run_calls later f1 in
  sessions f1 !! sessionId = None /\
  ForwardPayload srcAddr payload f2 =
    (Returned (Some (Errorf ("cannot forward payload, no forward table for session=" +:+ sessionId
                             +:+ " src=" +:+ srcAddr))), f2, []) /\
  (forall route, Route_SessionId route = sessionId ->
     is_Some (sessions (state_of (Route route f2)) !! sessionId)).
Proof.
  intros f1 f2.
  assert (unrouted sessionId f1) as H1.
  { subst f1. rewrite Unroute_now_run. apply keeps_UnregisterDestinations.
    unfold unrouted. simpl. apply lookup_delete_eq. }
  assert (unrouted sessionId f2) as H2 by by apply keeps_run_calls.
  split_and!; [done | |].
  - rewrite ForwardPayload_unfold. unfold lookup_chain. rewrite Hsession.
    unfold unrouted in H2. by rewrite H2.
  - intros route <-. simpl. unfold st_setForwardTable. rewrite lookup_insert_eq. eauto.
Qed.

(** ** Route *)

Lemma fold_forwards_lookup forwards (ft : gmap string string) src :
  fold_left (fun ft forward => setForwardAddress (SrcAddress forward) (DstAddress forward) ft)
    forwards ft !! src =
  match last_forward src forwards with
  | Some dst => Some dst
  | None => ft !! src
  end.
Proof.
  revert ft. induction forwards as [|fw rest IH]; intros ft; simpl; [done|].
  rewrite IH. destruct (last_forward src rest) as [dst|]; [done|].
  unfold setForwardAddress. destruct (decide (SrcAddress fw = src)) as [->|Hne].
  - apply lookup_insert_eq.
  - by apply lookup_insert_ne.
Qed.

Lemma fold_forwards_idemp forwards (ft : gmap string string) :
  let merge := fold_left (fun ft forward =>
                 setForwardAddress (SrcAddress forward) (DstAddress forward) ft) forwards in
  merge (merge ft) = merge ft.
Proof.
  intros merge. apply map_eq. intros src. subst merge. rewrite !fold_forwards_lookup.
  by destruct (last_forward src forwards).
Qed.

Lemma Route_run route f :
  Route route f =
  (Returned tt,
   mkForwarder
     (<[Route_SessionId route :=
          fold_left (fun ft forward => setForwardAddress (SrcAddress forward) (DstAddress forward) ft)
            (Route_Forwards route) (default newForwardTable (sessions f !! Route_SessionId route))]>
        (sessions f))
     (destinations f) (Options f),
   []).
Proof.
  unfold Route, bind, getForwardTable, gets, setForwardTable, modify, st_getForwardTable,
    st_setForwardTable. simpl.
  by destruct (sessions f !! Route_SessionId route).
Qed.

(** C4. A [Route] for a session that already has a forward table merges into
    that table: afterwards a source address of the message maps to the
    destination address of its last forward in the message, every other
    source address maps to what it mapped to before, and nothing else in the
    forwarder changes. A second [Route] with the same message leaves the
    forwarder exactly as the first one left it. *)
Theorem Route_merges (route : Route_msg) (f : Forwarder) (ft : gmap string string)
    (Hft : sessions f !! Route_SessionId route = Some ft) :
  let f1 := state_of (Route route f) in
  exists ft' : gmap string string,
    Route route f =
      (Returned tt,
       mkForwarder (<[Route_SessionId route := ft']> (sessions f)) (destinations f) (Options f), []) /\
    (forall src, ft' !! src =
                 match last_forward src (Route_Forwards route) with
                 | Some dst => Some dst
                 | None => ft !! src
                 end) /\
    Route route f1 = (Returned tt, f1, []).
Proof.
  intros f1. eexists. split; [apply Route_run|]. rewrite Hft. simpl. split.
  - intros src. apply fold_forwards_lookup.
  - subst f1. rewrite (Route_run route f), Hft. simpl. rewrite Route_run. simpl.
    rewrite lookup_insert_eq. simpl. by rewrite fold_forwards_idemp, insert_insert_eq.
Qed.

(** ** The unroute timeout worker *)

Lemma int64_fits z : fits_int64 z -> int64 z = z.
Proof.
  unfold fits_int64, int64. intros Hz.
  rewrite Z.mod_small; lia.
Qed.

Lemma elapsed_fits delta :
  fits_int64 (delta * Millisecond) -> int64 (int64 delta * Millisecond) = delta * Millisecond.
Proof.
  intros Hd. assert (fits_int64 delta) as Hd'.
  { unfold fits_int64, Millisecond in *. lia. }
  by rewrite (int64_fits delta Hd'), int64_fits.
Qed.

Lemma spec_Reap_run sessionId f :
  spec_Reap sessionId f =
  (match result_of (Unroute sessionId true f) with
   | Returned _ => Returned Reaped
   | Panicked p => Panicked p
   end,
   state_of (Unroute sessionId true f), events_of (Unroute sessionId true f)).
Proof.
  unfold spec_Reap, Unroute, bind, removeForwardTable, modify, EndSession, ret. simpl.
  destruct (UnregisterDestinations sessionId _) as [[[[]|p] f'] evs]; simpl; [|done].
  by rewrite app_nil_r.
Qed.

Lemma unrouteTimeout_tick_run sessionId interval now lastRx f :
  unrouteTimeout_tick sessionId interval now lastRx f =
  match first_found (dt_destinations (destinations f)) (linked_addresses f sessionId) with
  | None => spec_Reap sessionId f
  | Some d =>
      match asXgressDestination d with
      | None => (Panicked (interface_conversion d), f, [])
      | Some x =>
          if bool_decide (interval <= int64 (int64 (now - lastRx x) * Millisecond))
          then spec_Reap sessionId f
          else (Returned Scheduled, f, [])
      end
  end.
Proof.
  unfold unrouteTimeout_tick, bind at 1. rewrite getXgressForSession_run.
  destruct (first_found _ _) as [d|]; [destruct (asXgressDestination d) as [x|]|]; simpl.
  - case_bool_decide; [|done].
    fold (spec_Reap sessionId). by destruct (spec_Reap sessionId f) as [[r f'] evs].
  - done.
  - fold (spec_Reap sessionId). by destruct (spec_Reap sessionId f) as [[r f'] evs].
Qed.

Lemma spec_Reap_stops sessionId interval now lastRx rest f :
  unrouteTimeout_tick sessionId interval now lastRx f = spec_Reap sessionId f ->
  unrouteTimeout_loop sessionId interval (ticker_C now lastRx :: rest) f = spec_Reap sessionId f.
Proof.
  intros Htick. simpl. unfold bind. rewrite Htick, spec_Reap_run.
  destruct (Unroute sessionId true f) as [[[[]|p] f'] evs]; simpl; [|done].
  by rewrite app_nil_r.
Qed.

Lemma tick_stays sessionId interval now lastRx rest f :
  unrouteTimeout_tick sessionId interval now lastRx f = (Returned Scheduled, f, []) ->
  unrouteTimeout_loop sessionId interval (ticker_C now lastRx :: rest) f =
  unrouteTimeout_loop sessionId interval rest f.
Proof.
  intros Htick. simpl. unfold bind. rewrite Htick.
  by destruct (unrouteTimeout_loop sessionId interval rest f) as [[r f'] evs].
Qed.


(** ** Registering a destination, and invariant I1 *)

Lemma elem_of_add_address a a0 (l : list string) :
  a ∈ add_address a0 l <-> a = a0 \/ a ∈ l.
Proof.
  unfold add_address. destruct (decide (a0 ∈ l)) as [Hin|Hnin].
  - split; [by right | by intros [->|?]].
  - rewrite elem_of_app, list_elem_of_singleton. tauto.
Qed.

Lemma adds_before_links_mono added added' history :
  added ⊆ added' -> adds_before_links added history = true ->
  adds_before_links added' history = true.
Proof.
  revert added added'. induction history as [|[a d|s a|a|s] rest IH]; intros added added' Hsub;
    simpl; [done | | | by apply IH..].
  - apply IH. by apply list_subseteq_skip.
  - intros [Hin Hrest]%andb_prop. apply bool_decide_eq_true in Hin.
    apply andb_true_intro. split; [apply bool_decide_eq_true; by apply Hsub | by eapply IH].
Qed.





End properties.

(** * The scenarios, run *)

(** S1: the payload from a goes to B, the one from b to A. *)
Example scenario_S1 :
  @ForwardPayload scenario_methods "a" payload_s1 forwarder_S1 =
    (Returned None, forwarder_S1,
     [call_SendPayload (DestXgress xgress_B) payload_s1; log_Debug "=> b"]) /\
  @ForwardPayload scenario_methods "b" payload_s1 forwarder_S1 =
    (Returned None, forwarder_S1,
     [call_SendPayload (DestXgress xgress_A) payload_s1; log_Debug "=> a"]).
Proof. split; reflexivity. Qed.

(** S6: a payload routed to the token of a registered link is handed to the
    link, whose error comes back as it is; once the link is unregistered the
    same payload fails with "no destination". *)
Example scenario_S6 :
  @ForwardPayload scenario_methods "a" payload_s1
    (@run_calls scenario_methods
       [call_RegisterLink link_L; call_Route (mkRoute "s1" [mkForward "a" "t1"])] forwarder_S1) =
    (Returned (Some (Errorf "link closed")),
     @run_calls scenario_methods
       [call_RegisterLink link_L; call_Route (mkRoute "s1" [mkForward "a" "t1"])] forwarder_S1,
     [call_SendPayload (DestXlink link_L) payload_s1]) /\
  result_of
    (@ForwardPayload scenario_methods "a" payload_s1
       (@run_calls scenario_methods
          [call_RegisterLink link_L; call_Route (mkRoute "s1" [mkForward "a" "t1"]);
           call_UnregisterLink link_L] forwarder_S1)) =
    Returned (Some (Errorf "cannot forward payload, no destination for session=s1 src=a dst=t1")).
Proof. split; reflexivity. Qed.

(** The two steps of [RegisterDestination] the other way round would leave,
    between them, a linked address that neither resolves nor was torn down. *)
Example link_before_add :
  adds_before_links [] [act_linkDestinationToSession "s1" "a";
                        act_addDestination "a" (DestXgress xgress_A)] = false /\
  dt_getAddressesForSession "s1"
    (dt_run [act_linkDestinationToSession "s1" "a"] newDestinationTable) = Some ["a"] /\
  dt_getDestination "a"
    (dt_run [act_linkDestinationToSession "s1" "a"] newDestinationTable) = None /\
  torn_down "a" [act_linkDestinationToSession "s1" "a"] = false.
Proof. repeat split; reflexivity. Qed.

(** S2: after S1, the payload from a is delivered; after [Unroute("s1", true)]
    and any of the later calls, it fails with "no forward table". *)
Lemma Unroute_now_no_forward_table_S2 :
  result_of (@ForwardPayload scenario_methods "a" payload_s1 forwarder_S1) = Returned None /\
  @ForwardPayload scenario_methods "a" payload_s1
    (@run_calls scenario_methods later_calls (state_of (Unroute "s1" true forwarder_S1))) =
  (Returned (Some (Errorf "cannot forward payload, no forward table for session=s1 src=a")),
   @run_calls scenario_methods later_calls (state_of (Unroute "s1" true forwarder_S1)), []).
Proof.
  split; [reflexivity|].
  assert (Forall (fun c => installs_route "s1" c = false) later_calls) as Hlater
    by (repeat constructor).
  exact (proj1 (proj2 (@Unroute_now_no_forward_table scenario_methods "s1" forwarder_S1
                         later_calls "a" payload_s1 eq_refl Hlater))).
Defined.

(** A route for s1 that rewrites a twice and adds d, on the tables of S1: a
    maps to the last of the two, b keeps its forward, and the same route again
    changes nothing. *)
Lemma Route_merges_S1 :
  sessions (state_of (Route (mkRoute "s1" [mkForward "a" "c"; mkForward "d" "e"; mkForward "a" "z"])
                        forwarder_S1)) !! "s1" =
    Some (list_to_map [("a", "z"); ("b", "a"); ("d", "e")]) /\
  Route (mkRoute "s1" [mkForward "a" "c"; mkForward "d" "e"; mkForward "a" "z"])
    (state_of (Route (mkRoute "s1" [mkForward "a" "c"; mkForward "d" "e"; mkForward "a" "z"])
                 forwarder_S1)) =
  (Returned tt,
   state_of (Route (mkRoute "s1" [mkForward "a" "c"; mkForward "d" "e"; mkForward "a" "z"])
               forwarder_S1), []).
Proof.
  assert (sessions forwarder_S1 !! "s1" = Some (list_to_map [("a", "b"); ("b", "a")])) as Hft
    by reflexivity.
  destruct (Route_merges (mkRoute "s1" [mkForward "a" "c"; mkForward "d" "e"; mkForward "a" "z"])
              forwarder_S1 _ Hft) as (ft' & Hrun & Hlookup & Hagain).
  split; [reflexivity | exact Hagain].
Defined.

(** S3-like: a payload and an acknowledgement of s1 from the unmapped address
    c fail and leave the tables of S1 as they are. *)
Lemma forward_miss_leaves_tables_S1 :
  (exists err, @ForwardPayload scenario_methods "c" payload_s1 forwarder_S1 =
                 (Returned (Some err), forwarder_S1, [])) /\
  (exists err, @ForwardAcknowledgement scenario_methods "c" ack_s1 forwarder_S1 =
                 (Returned (Some err), forwarder_S1, [])).
Proof.
  destruct (@forward_miss_leaves_tables scenario_methods forwarder_S1 "s1" "c" eq_refl)
    as [Hpayload Hack].
  split; [apply Hpayload | apply Hack]; reflexivity.
Defined.

(** S2, twice: the second [Unroute("s1", true)] only writes its debug line. *)
Lemma Unroute_now_twice_S2 :
  spawned (events_of (Unroute "s1" true forwarder_S1)) =
    [task_Unrouted xgress_A; task_Unrouted xgress_B] /\
  Unroute "s1" true (state_of (Unroute "s1" true forwarder_S1)) =
  (Returned tt, state_of (Unroute "s1" true forwarder_S1),
   [log_Debug "found no addresses to unregister for [s/s1]"]).
Proof.
  split; [reflexivity|].
  assert (Unroute "s1" true forwarder_S1 =
          (Returned tt, state_of (Unroute "s1" true forwarder_S1),
           events_of (Unroute "s1" true forwarder_S1))) as Hfirst by reflexivity.
  exact (proj2 (proj2 (Unroute_now_twice "s1" forwarder_S1 _ _ Hfirst))).
Defined.


(** With the link under s1 after the two endpoints, [UnregisterDestinations]
    panics at it and [getXgressForSession] does not; on the tables of S1
    [UnregisterDestinations] does not panic. *)
Lemma type_assertions_unchecked_link_last :
  panics (UnregisterDestinations "s1" forwarder_link_last) /\
  ~ panics (getXgressForSession "s1" forwarder_link_last) /\
  ~ panics (UnregisterDestinations "s1" forwarder_S1).
Proof.
  destruct (type_assertions_unchecked "s1" forwarder_link_last) as (HU & HG & _ & _).
  destruct (type_assertions_unchecked "s1" forwarder_S1) as (_ & _ & _ & Hsafe).
  split; [|split].
  - apply HU. exists "t1", (DestXlink link_L). split; [|split]; [|reflexivity..].
    vm_compute. do 2 apply list_elem_of_further. apply list_elem_of_here.
  - intros (d & Hd & Hx)%HG. vm_compute in Hd. injection Hd as <-. discriminate Hx.
  - apply Hsafe. intros a d Hin Hd. vm_compute in Hin.
    apply elem_of_cons in Hin as [->|Hin]; [|apply elem_of_cons in Hin as [->|Hin]].
    + vm_compute in Hd. injection Hd as <-. by eexists.
    + vm_compute in Hd. injection Hd as <-. by eexists.
    + by apply elem_of_nil in Hin.
Defined.



(** ** Where the specification and the code part *)


(** C5 as stated fails where the link is registered under the session after
    the two endpoints: a destination linked to the session through
    [RegisterDestination] is not an xgress, and [getXgressForSession] returns
    the endpoint A without panicking. *)
Lemma getXgressForSession_link_last :
  forwarder_link_last =
    state_of (RegisterDestination "s1" "t1" (DestXlink link_L) forwarder_S1) /\
  dt_getAddressesForSession "s1" (destinations forwarder_link_last) = Some ["a"; "b"; "t1"] /\
  dt_getDestination "t1" (destinations forwarder_link_last) = Some (DestXlink link_L) /\
  asXgressDestination (DestXlink link_L) = None /\
  getXgressForSession "s1" forwarder_link_last =
    (Returned (Some xgress_A), forwarder_link_last, []).
Proof. repeat split; reflexivity. Qed.


(** * Further properties of the forwarder *)

Section further.
Context `{DestinationMethods}.

(** ** The data path *)

(** X1. For a payload and an acknowledgement of the same session from the
    same source address, [ForwardPayload] and [ForwardAcknowledgement] resolve
    alike: they send to the same destination, at most one, and return what
    its [SendPayload] and [SendAcknowledgement] return; or neither sends and
    both return a lookup error. *)
Theorem forward_paths_agree (srcAddr : Address) (payload : Payload) (ack : Acknowledgement)
    (f : Forwarder) (Hsame : Payload_SessionId payload = Acknowledgement_SessionId ack) :
  let p := ForwardPayload srcAddr payload f in
  let a := ForwardAcknowledgement srcAddr ack f in
  sent_to (events_of p) = sent_to (events_of a) /\
  (sent_to (events_of p) = [] /\
   (exists e, result_of p = Returned (Some e)) /\ (exists e, result_of a = Returned (Some e)) \/
   exists dst, sent_to (events_of p) = [dst] /\
     result_of p = Returned (SendPayload dst payload) /\
     result_of a = Returned (SendAcknowledgement dst ack)).
Proof.
  intros p a. subst p a.
  rewrite ForwardPayload_unfold, ForwardAcknowledgement_unfold, Hsame.
  destruct (lookup_chain f (Acknowledgement_SessionId ack) srcAddr) as [| |dstAddr|dstAddr dst].
  - split; [done|]. left. simpl. eauto.
  - split; [done|]. left. simpl. eauto.
  - split; [done|]. left. simpl. eauto.
  - destruct (SendPayload dst payload) eqn:Ep, (SendAcknowledgement dst ack) eqn:Ea; simpl;
      (split; [done|]); right; exists dst; by rewrite Ep, Ea.
Qed.

Lemma forward_call_state c f : is_forward c = true -> run_call c f = f.
Proof.
  destruct c; try done; intros _; simpl.
  - rewrite ForwardPayload_unfold. by repeat case_match.
  - rewrite ForwardAcknowledgement_unfold. by repeat case_match.
Qed.

(** X2. The data path is read-only: a history of [ForwardPayload] and
    [ForwardAcknowledgement] calls, delivered or failed at a lookup or in the
    send, leaves the forwarder as it was, so a later forward resolves as it
    would have before (a failed send unregisters nothing). *)
Theorem data_path_read_only (traffic : list Call) (f : Forwarder)
    (Htraffic : Forall (fun c => is_forward c = true) traffic) :
  run_calls traffic f = f /\
  (forall srcAddr payload,
     ForwardPayload srcAddr payload (run_calls traffic f) = ForwardPayload srcAddr payload f) /\
  (forall srcAddr ack,
     ForwardAcknowledgement srcAddr ack (run_calls traffic f) =
     ForwardAcknowledgement srcAddr ack f).
Proof.
  assert (run_calls traffic f = f) as ->; [|done].
  unfold run_calls. induction Htraffic as [|c cs Hc _ IH]; simpl; [done|].
  by rewrite forward_call_state.
Qed.

(** ** Route *)

(** X3. Route, then forward: after a [Route] whose last forward for a source
    address names a destination address with a registered destination, a
    payload (an acknowledgement) of the session from that source address is
    handed to that destination, and the call returns what the send returns;
    it does not matter what the session had before. *)
Theorem Route_then_forward (route : Route_msg) (f : Forwarder) (srcAddr dstAddr : Address)
    (dst : Destination)
    (Hforward : last_forward srcAddr (Route_Forwards route) = Some dstAddr)
    (Hdst : dt_getDestination dstAddr (destinations f) = Some dst) :
  let f1 := state_of (Route route f) in
  (forall payload, Payload_SessionId payload = Route_SessionId route ->
     result_of (ForwardPayload srcAddr payload f1) = Returned (SendPayload dst payload) /\
     sent_to (events_of (ForwardPayload srcAddr payload f1)) = [dst]) /\
  (forall ack, Acknowledgement_SessionId ack = Route_SessionId route ->
     result_of (ForwardAcknowledgement srcAddr ack f1) = Returned (SendAcknowledgement dst ack) /\
     sent_to (events_of (ForwardAcknowledgement srcAddr ack f1)) = [dst]).
Proof.
  intros f1.
  assert (forall s, s = Route_SessionId route ->
            lookup_chain f1 s srcAddr = Resolved dstAddr dst) as Hchain.
  { intros s ->. subst f1. rewrite Route_run. unfold lookup_chain. simpl.
    rewrite lookup_insert_eq, fold_forwards_lookup, Hforward.
    unfold dt_getDestination in Hdst. by rewrite Hdst. }
  split.
  - intros payload Hs. rewrite ForwardPayload_unfold, (Hchain _ Hs). simpl.
    split; [done|]. by destruct (SendPayload dst payload).
  - intros ack Hs. rewrite ForwardAcknowledgement_unfold, (Hchain _ Hs). simpl.
    split; [done|]. by destruct (SendAcknowledgement dst ack).
Qed.

(** X4. A [Route] for a session the forwarder does not know creates its
    forward table with the forwards of the message and nothing else. So a
    source address the message does not name, in particular every source
    address when the message has no forwards, then fails with the "no
    destination address" error and no longer with "no forward table". *)
Theorem Route_unknown_session (route : Route_msg) (f : Forwarder)
    (Hunknown : sessions f !! Route_SessionId route = None) :
  let f1 := state_of (Route route f) in
  (exists ft : gmap string string,
     sessions f1 !! Route_SessionId route = Some ft /\
     forall src, ft !! src = last_forward src (Route_Forwards route)) /\
  (forall srcAddr payload,
     Payload_SessionId payload = Route_SessionId route ->
     last_forward srcAddr (Route_Forwards route) = None ->
     ForwardPayload srcAddr payload f =
       (Returned (Some (Errorf ("cannot forward payload, no forward table for session="
                                +:+ Route_SessionId route +:+ " src=" +:+ srcAddr))), f, []) /\
     ForwardPayload srcAddr payload f1 =
       (Returned (Some (Errorf ("cannot forward payload, no destination address for session="
                                +:+ Route_SessionId route +:+ " src=" +:+ srcAddr))), f1, [])).
Proof.
  intros f1. subst f1. rewrite Route_run, Hunknown. simpl. split.
  - eexists. split; [apply lookup_insert_eq|]. intros src.
    rewrite fold_forwards_lookup. unfold newForwardTable.
    destruct (last_forward src (Route_Forwards route)); [done | apply lookup_empty].
  - intros srcAddr payload Hs Hnone. rewrite !ForwardPayload_unfold. unfold lookup_chain.
    rewrite Hs, Hunknown. simpl. rewrite lookup_insert_eq, fold_forwards_lookup, Hnone.
    unfold newForwardTable. by rewrite lookup_empty.
Qed.

(** X5. Route messages compose: a [Route] with the forwards of one message
    followed by those of another leaves the forwarder as the two [Route]s one
    after the other do. *)
Theorem Route_app (sessionId : SessionId) (forwards1 forwards2 : list Route_Forward)
    (f : Forwarder) :
  state_of (Route (mkRoute sessionId (forwards1 ++ forwards2)) f) =
  state_of (Route (mkRoute sessionId forwards2)
              (state_of (Route (mkRoute sessionId forwards1) f))).
Proof.
  rewrite !Route_run. simpl. rewrite lookup_insert_eq, insert_insert_eq, fold_left_app. done.
Qed.

(** X6. A [Route] changes the forward table of its session only: the forward
    tables of the other sessions and the destination table stay as they were,
    and two [Route]s for different sessions leave the same forwarder in either
    order. *)
Theorem Route_frame (route1 route2 : Route_msg) (f : Forwarder)
    (Hsessions : Route_SessionId route1 <> Route_SessionId route2) :
  sessions (state_of (Route route1 f)) !! Route_SessionId route2 =
    sessions f !! Route_SessionId route2 /\
  destinations (state_of (Route route1 f)) = destinations f /\
  state_of (Route route2 (state_of (Route route1 f))) =
  state_of (Route route1 (state_of (Route route2 f))).
Proof.
  split_and!.
  - rewrite Route_run. simpl. by rewrite lookup_insert_ne.
  - by rewrite Route_run.
  - rewrite (Route_run route2 (state_of (Route route1 f))),
      (Route_run route1 (state_of (Route route2 f))), (Route_run route1 f), (Route_run route2 f).
    unfold state_of. simpl. rewrite !lookup_insert_ne by done.
    f_equal. by apply insert_insert_ne.
Qed.

(** ** Registering and unregistering destinations *)

Lemma linked_addresses_Some f sessionId addresses :
  dt_xgress (destinations f) !! sessionId = Some addresses ->
  linked_addresses f sessionId = addresses.
Proof. unfold linked_addresses. by intros ->. Qed.

Lemma run_registrations sessionId endpoints :
  forall f,
    NoDup (linked_addresses f sessionId ++ endpoints.*1) ->
    let f1 := run_calls (registrations sessionId endpoints) f in
    sessions f1 = sessions f /\
    Options f1 = Options f /\
    (endpoints <> [] ->
     dt_xgress (destinations f1) !! sessionId =
       Some (linked_addresses f sessionId ++ endpoints.*1)) /\
    (forall s, s <> sessionId ->
       dt_xgress (destinations f1) !! s = dt_xgress (destinations f) !! s) /\
    (forall a x, (a, x) ∈ endpoints ->
       dt_destinations (destinations f1) !! a = Some (DestXgress x)) /\
    (forall a, a ∉ endpoints.*1 ->
       dt_destinations (destinations f1) !! a = dt_destinations (destinations f) !! a).
Proof.
  induction endpoints as [|[a x] rest IH]; intros f Hnd f1.
  - subst f1. split_and!; try done. by intros a x ?%elem_of_nil.
  - subst f1. simpl in Hnd.
    set (f' := run_call (call_RegisterDestination sessionId a (DestXgress x)) f).
    assert (a ∉ linked_addresses f sessionId) as Hfresh.
    { apply NoDup_app in Hnd as (_ & Hdisj & _). intros Hin. apply (Hdisj a Hin). by left. }
    assert (dt_xgress (destinations f') !! sessionId = Some (linked_addresses f sessionId ++ [a]))
      as Hlinked.
    { subst f'. simpl. rewrite lookup_insert_eq. unfold add_address, linked_addresses in *.
      by rewrite decide_False. }
    assert (a ∉ rest.*1) as Hrest.
    { apply NoDup_app in Hnd as (_ & _ & Hnd). by apply NoDup_cons in Hnd as [? _]. }
    destruct (IH f') as (Hst & Hopts & Hs & Hother & Hin & Hout).
    { rewrite (linked_addresses_Some _ _ _ Hlinked), <- app_assoc. exact Hnd. }
    change (run_calls (registrations sessionId ((a, x) :: rest)) f)
      with (run_calls (registrations sessionId rest) f').
    split_and!.
    + by rewrite Hst.
    + by rewrite Hopts.
    + intros _. destruct rest as [|e rest'].
      * exact Hlinked.
      * rewrite Hs by done. by rewrite (linked_addresses_Some _ _ _ Hlinked), <- app_assoc.
    + intros s Hne. rewrite (Hother s Hne). subst f'. simpl. by rewrite lookup_insert_ne.
    + intros a' x' [[= -> ->]|Hin']%elem_of_cons.
      * rewrite (Hout a Hrest). subst f'. simpl. apply lookup_insert_eq.
      * by apply Hin.
    + intros a' Hnin. simpl in Hnin. apply not_elem_of_cons in Hnin as [Hne Hnin].
      rewrite (Hout a' Hnin). subst f'. simpl. by rewrite lookup_insert_ne.
Qed.

Lemma found_destinations_registered (endpoints : list (Address * Xgress)) :
  forall ds : gmap string Destination,
    NoDup endpoints.*1 ->
    (forall a x, (a, x) ∈ endpoints -> ds !! a = Some (DestXgress x)) ->
    found_destinations ds endpoints.*1 = (fun ax => (ax.1, DestXgress ax.2)) <$> endpoints.
Proof.
  induction endpoints as [|[a x] rest IH]; intros ds Hnd Hds; simpl; [done|].
  apply NoDup_cons in Hnd as [Hnin Hnd].
  rewrite (Hds a x) by left. f_equal. apply IH; [done|].
  intros a' x' Hin. rewrite lookup_delete_ne.
  - apply Hds. by right.
  - intros ->. apply Hnin. apply list_elem_of_fmap. by exists (a', x').
Qed.

(** X7. Register, then unregister: after xgress endpoints have been registered
    at distinct fresh addresses under a session that had no addresses,
    [UnregisterDestinations] of that session returns, starts exactly one
    [Unrouted] goroutine per endpoint, in the order of registration, and
    leaves the forwarder exactly as it was before the registrations. *)
Theorem register_unregister_round_trip (sessionId : SessionId)
    (endpoints : list (Address * Xgress)) (f : Forwarder)
    (Hdistinct : NoDup endpoints.*1)
    (Hunlinked : dt_getAddressesForSession sessionId (destinations f) = None)
    (Hfresh : forall a, a ∈ endpoints.*1 -> dt_getDestination a (destinations f) = None) :
  exists evs,
    UnregisterDestinations sessionId (run_calls (registrations sessionId endpoints) f) =
      (Returned tt, f, evs) /\
    spawned evs = (fun ax => task_Unrouted ax.2) <$> endpoints.
Proof.
  unfold dt_getAddressesForSession, dt_getDestination in *.
  destruct (decide (endpoints = [])) as [->|Hne].
  - eexists. split; [by apply UnregisterDestinations_unlinked | done].
  - destruct (run_registrations sessionId endpoints f)
      as (Hst & Hopts & Hs & Hother & Hin & Hout).
    { unfold linked_addresses. by rewrite Hunlinked. }
    specialize (Hs Hne). unfold linked_addresses in Hs. rewrite Hunlinked in Hs. simpl in Hs.
    set (f1 := run_calls (registrations sessionId endpoints) f) in *.
    pose proof (found_destinations_registered endpoints _ Hdistinct Hin) as Hfound.
    destruct (UnregisterDestinations_returns sessionId f1 _ Hs) as (evs & Hrun & Hsp).
    { rewrite Hfound. apply Forall_forall. intros [a d] ([a' x] & [= -> ->] & _)%list_elem_of_fmap.
      by eexists. }
    exists evs. split.
    + rewrite Hrun. f_equal. f_equal. destruct f as [st [ds xs] opts]. simpl in *.
      rewrite Hst, Hopts. f_equal. f_equal.
      * apply map_eq. intros a. rewrite remove_all_lookup.
        destruct (decide (a ∈ endpoints.*1)) as [Ha|Ha]; [by rewrite Hfresh | by apply Hout].
      * apply map_eq. intros s. destruct (decide (s = sessionId)) as [->|Hs'].
        -- by rewrite lookup_delete_eq.
        -- rewrite lookup_delete_ne by done. by apply Hother.
    + rewrite Hsp, Hfound. clear. induction endpoints as [|[a x] rest IH]; simpl; [done|].
      f_equal. exact IH.
Qed.

(** ** What a teardown leaves alone *)

Lemma state_of_bind {A B} (m : M A) (k : A -> M B) f :
  state_of (bind m k f) =
  match result_of (m f) with
  | Returned a => state_of (k a (state_of (m f)))
  | Panicked _ => state_of (m f)
  end.
Proof.
  unfold bind, state_of, result_of.
  destruct (m f) as [[[a|p] f1] ev1]; simpl; [|done].
  by destruct (k a f1) as [[r f2] ev2].
Qed.

Lemma state_of_bind_Returned {A B} (m : M A) (k : A -> M B) f a f1 ev1 :
  m f = (Returned a, f1, ev1) -> state_of (bind m k f) = state_of (k a f1).
Proof. intros E. by rewrite state_of_bind, E. Qed.

Lemma state_of_bind_Panicked {A B} (m : M A) (k : A -> M B) f p f1 ev1 :
  m f = (Panicked p, f1, ev1) -> state_of (bind m k f) = f1.
Proof. intros E. by rewrite state_of_bind, E. Qed.

(** Whatever its outcome, the loop of [UnregisterDestinations] has removed
    the destinations of a prefix of the addresses and changed nothing else. *)
Lemma UnregisterDestinations_range_state sessionId addresses :
  forall f, exists processed,
    processed `prefix_of` addresses /\
    state_of (for_range addresses (UnregisterDestinations_address sessionId) f) =
      set_dt_destinations (remove_all processed (dt_destinations (destinations f))) f.
Proof.
  induction addresses as [|a rest IH]; intros f.
  - exists []. split; [done|]. simpl. by rewrite set_dt_destinations_same.
  - cbn [for_range].
    pose proof (UnregisterDestinations_address_run sessionId a f) as Hbody.
    destruct (dt_destinations (destinations f) !! a) as [d|] eqn:E.
    + cbn zeta in Hbody. destruct (asXgressDestination d) as [x|].
      * rewrite (state_of_bind_Returned _ _ _ _ _ _ Hbody).
        destruct (IH (set_dt_destinations (delete a (dt_destinations (destinations f))) f))
          as (processed & Hpre & ->).
        exists (a :: processed). split; [by apply prefix_cons|]. done.
      * rewrite (state_of_bind_Panicked _ _ _ _ _ _ Hbody).
        exists [a]. split; [|done]. apply prefix_cons, prefix_nil.
    + rewrite (state_of_bind_Returned _ _ _ _ _ _ Hbody).
      destruct (IH f) as (processed & Hpre & ->).
      exists (a :: processed). split; [by apply prefix_cons|].
      unfold remove_all. simpl. by rewrite (delete_id _ _ E).
Qed.

Lemma UnregisterDestinations_effect sessionId f :
  let f' := state_of (UnregisterDestinations sessionId f) in
  sessions f' = sessions f /\
  Options f' = Options f /\
  (forall s, s <> sessionId ->
     dt_xgress (destinations f') !! s = dt_xgress (destinations f) !! s) /\
  (dt_xgress (destinations f') !! sessionId = None \/
   dt_xgress (destinations f') !! sessionId = dt_xgress (destinations f) !! sessionId) /\
  (forall a, a ∉ linked_addresses f sessionId ->
     dt_destinations (destinations f') !! a = dt_destinations (destinations f) !! a) /\
  (forall a d, dt_destinations (destinations f') !! a = Some d ->
     dt_destinations (destinations f) !! a = Some d).
Proof.
  intros f'. subst f'. unfold linked_addresses.
  destruct (dt_xgress (destinations f) !! sessionId) as [addresses|] eqn:E.
  - rewrite (UnregisterDestinations_linked _ _ _ E), state_of_bind.
    destruct (UnregisterDestinations_range_state sessionId addresses f)
      as (processed & Hpre & Hstate).
    assert (forall a, a ∉ addresses ->
              remove_all processed (dt_destinations (destinations f)) !! a =
              dt_destinations (destinations f) !! a) as Hout.
    { intros a Ha. rewrite remove_all_lookup. destruct (decide (a ∈ processed)) as [Hin|]; [|done].
      destruct Ha. destruct Hpre as [k ->]. apply elem_of_app. by left. }
    assert (forall a d, remove_all processed (dt_destinations (destinations f)) !! a = Some d ->
              dt_destinations (destinations f) !! a = Some d) as Hsome.
    { intros a d. rewrite remove_all_lookup. by destruct (decide (a ∈ processed)). }
    destruct (result_of _); simpl; rewrite Hstate; simpl; split_and!; try done.
    + intros s Hs. by rewrite lookup_delete_ne.
    + left. apply lookup_delete_eq.
    + by right.
  - rewrite (UnregisterDestinations_unlinked _ _ E). simpl. split_and!; try done. by right.
Qed.

(** X8. [UnregisterDestinations] does not look at the other sessions: when an
    address is linked to two sessions and the destinations of one of them are
    unregistered, the address stays linked to the other session but has no
    destination any more ([HasDestination] answers false). *)
Theorem shared_address_teardown (session1 session2 : SessionId) (a : Address)
    (f f' : Forwarder) (evs : list Event)
    (Hsessions : session1 <> session2)
    (Hlinked1 : a ∈ linked_addresses f session1)
    (Hlinked2 : a ∈ linked_addresses f session2)
    (Hreturns : UnregisterDestinations session1 f = (Returned tt, f', evs)) :
  a ∈ linked_addresses f' session2 /\
  HasDestination a f' = (Returned false, f', []).
Proof.
  unfold linked_addresses in Hlinked1.
  destruct (dt_xgress (destinations f) !! session1) as [addresses|] eqn:E;
    [|by apply elem_of_nil in Hlinked1].
  simpl in Hlinked1.
  destruct (found_destinations_Forall_Exists (dt_destinations (destinations f)) addresses)
    as [Hall|Hex].
  - destruct (UnregisterDestinations_returns _ _ _ E Hall) as (evs' & Hrun & _).
    rewrite Hrun in Hreturns. injection Hreturns as <- _. split.
    + unfold linked_addresses in *. simpl. by rewrite lookup_delete_ne.
    + unfold HasDestination, bind, getDestination, gets, dt_getDestination. simpl.
      rewrite remove_all_lookup. by rewrite decide_True.
  - destruct (UnregisterDestinations_panics _ _ _ E Hex) as (d & ds & evs' & Hrun & _).
    by rewrite Hrun in Hreturns.
Qed.

(** X9. [Unroute(sessionId, true)], whether it returns or panics, touches the
    session it is given only: the forward table and the linked addresses of
    every other session are as they were, a destination at an address that
    was not linked to the session is as it was, and no destination is
    added or replaced. *)
Theorem Unroute_now_frame (sessionId other : SessionId) (a : Address) (f : Forwarder)
    (Hother : other <> sessionId) :
  let f' := state_of (Unroute sessionId true f) in
  sessions f' !! other = sessions f !! other /\
  dt_getAddressesForSession other (destinations f') =
    dt_getAddressesForSession other (destinations f) /\
  (a ∉ linked_addresses f sessionId ->
   dt_getDestination a (destinations f') = dt_getDestination a (destinations f)) /\
  (forall d, dt_getDestination a (destinations f') = Some d ->
             dt_getDestination a (destinations f) = Some d) /\
  Options f' = Options f.
Proof.
  intros f'. subst f'. rewrite Unroute_now_run.
  destruct (UnregisterDestinations_effect sessionId
              (mkForwarder (delete sessionId (sessions f)) (destinations f) (Options f)))
    as (Hst & Hopts & Hxs & _ & Hout & Hsome).
  unfold dt_getAddressesForSession, dt_getDestination. split_and!.
  - rewrite Hst. simpl. by apply lookup_delete_ne.
  - by apply Hxs.
  - apply Hout.
  - apply Hsome.
  - by rewrite Hopts.
Qed.

(** ** The unroute timeout worker, over its whole run *)

Lemma Unroute_now_unknown sessionId f :
  sessions f !! sessionId = None ->
  dt_xgress (destinations f) !! sessionId = None ->
  Unroute sessionId true f =
    (Returned tt, f, [log_Debug ("found no addresses to unregister for [s/" +:+ sessionId +:+ "]")]).
Proof.
  intros Hst Hxs. rewrite Unroute_now_run, (delete_id _ _ Hst).
  destruct f as [st dt opts]. by apply UnregisterDestinations_unlinked.
Qed.

Lemma Unroute_now_Returned sessionId f f1 evs :
  Unroute sessionId true f = (Returned tt, f1, evs) ->
  sessions f1 !! sessionId = None /\ dt_xgress (destinations f1) !! sessionId = None.
Proof.
  rewrite Unroute_now_run. intros [Hst Hxs]%UnregisterDestinations_Returned.
  split; [|done]. rewrite Hst. simpl. apply lookup_delete_eq.
Qed.

Lemma unrouteTimeout_tick_cases sessionId interval now lastRx f :
  unrouteTimeout_tick sessionId interval now lastRx f = spec_Reap sessionId f \/
  unrouteTimeout_tick sessionId interval now lastRx f = (Returned Scheduled, f, []) \/
  exists d, unrouteTimeout_tick sessionId interval now lastRx f =
              (Panicked (interface_conversion d), f, []).
Proof.
  rewrite unrouteTimeout_tick_run.
  destruct (first_found _ _) as [d|]; [|by left].
  destruct (asXgressDestination d) as [x|]; [|right; right; by exists d].
  case_bool_decide; [by left | right; by left].
Qed.

(** X10. While the xgress of the session keeps receiving, the worker never
    reaps: ticks that each come less than the interval after the last receive
    leave the tables untouched, make no call, and leave the worker where it
    was, ready for what its [select] receives next. *)
Theorem idle_worker_stays (sessionId : SessionId) (interval : Z) (x : Xgress)
    (early rest : list Select) (f : Forwarder)
    (Hxgress : first_found (dt_destinations (destinations f)) (linked_addresses f sessionId) =
               Some (DestXgress x))
    (Hearly : Forall (early_tick interval x) early) :
  unrouteTimeout_loop sessionId interval (early ++ rest) f =
    unrouteTimeout_loop sessionId interval rest f /\
  unrouteTimeout_loop sessionId interval early f = (Returned Scheduled, f, []).
Proof.
  assert (forall rest, unrouteTimeout_loop sessionId interval (early ++ rest) f =
                       unrouteTimeout_loop sessionId interval rest f) as Hloop.
  { clear rest. intros rest. induction Hearly as [|c early Hc _ IH]; [done|].
    destruct c as [now lastRx|]; [destruct Hc as [Hfits Hlt] | destruct Hc].
    rewrite <- IH. change ((ticker_C now lastRx :: early) ++ rest)
      with (ticker_C now lastRx :: (early ++ rest)). apply tick_stays. rewrite unrouteTimeout_tick_run, Hxgress. simpl.
    rewrite (elapsed_fits _ Hfits). rewrite bool_decide_eq_false_2; [done | lia]. }
  split; [apply Hloop|]. specialize (Hloop []). by rewrite app_nil_r in Hloop.
Qed.

(** X11. Tearing down a session the forwarder does not know (no forward
    table, no linked addresses) is a no-op on every path: [EndSession],
    [Unroute(sessionId, true)] and the first tick of a timeout worker, for
    instance a duplicate worker after the session was reaped, all return,
    leave the forwarder as it was and write one debug line. *)
Theorem unknown_session_teardown (sessionId : SessionId) (interval now : Z)
    (lastRx : Xgress -> Z) (rest : list Select) (f : Forwarder)
    (Hunrouted : sessions f !! sessionId = None)
    (Hunlinked : dt_getAddressesForSession sessionId (destinations f) = None) :
  let line := log_Debug ("found no addresses to unregister for [s/" +:+ sessionId +:+ "]") in
  EndSession sessionId f = (Returned tt, f, [line]) /\
  Unroute sessionId true f = (Returned tt, f, [line]) /\
  getXgressForSession sessionId f = (Returned None, f, []) /\
  unrouteTimeout_loop sessionId interval (ticker_C now lastRx :: rest) f =
    (Returned Reaped, f, [line]).
Proof.
  intros line. unfold dt_getAddressesForSession in Hunlinked.
  pose proof (Unroute_now_unknown _ _ Hunrouted Hunlinked) as Hnow.
  assert (getXgressForSession sessionId f = (Returned None, f, [])) as Hget.
  { rewrite getXgressForSession_run. unfold linked_addresses. by rewrite Hunlinked. }
  split_and!; [by apply UnregisterDestinations_unlinked | done | done |].
  rewrite spec_Reap_stops.
  - by rewrite spec_Reap_run, Hnow.
  - rewrite unrouteTimeout_tick_run. unfold linked_addresses. by rewrite Hunlinked.
Qed.

Lemma unrouteTimeout_loop_outcome sessionId interval received :
  forall f w f' evs,
    unrouteTimeout_loop sessionId interval received f = (Returned w, f', evs) ->
    match w with
    | Reaped =>
        sessions f' !! sessionId = None /\ dt_xgress (destinations f') !! sessionId = None
    | _ => f' = f /\ evs = []
    end.
Proof.
  induction received as [|[now lastRx|] rest IH]; intros f w f' evs Hrun.
  - by injection Hrun as <- <- <-.
  - destruct (unrouteTimeout_tick_cases sessionId interval now lastRx f)
      as [Htick|[Htick|[d Htick]]].
    + rewrite (spec_Reap_stops _ _ _ _ _ _ Htick), spec_Reap_run in Hrun.
      destruct (Unroute sessionId true f) as [[[[]|p] f1] evs1] eqn:Hnow; simpl in Hrun; [|done].
      injection Hrun as <- <- <-. by apply Unroute_now_Returned in Hnow.
    + rewrite (tick_stays _ _ _ _ _ _ Htick) in Hrun. by apply IH in Hrun.
    + simpl in Hrun. unfold bind in Hrun. by rewrite Htick in Hrun.
  - by injection Hrun as <- <- <-.
Qed.

(** X12. What a worker that returned or is still waiting has done, whatever
    it received: cancelled or still scheduled, it has left the forwarder
    exactly as it was and made no call but its log lines; reaped, it has left
    the session with no forward table and no linked addresses. Its interval
    was positive, and it wrote "timeout" if and only if it returned. *)
Theorem unrouteTimeout_outcome (sessionId : SessionId) (interval : Z) (received : list Select)
    (f f' : Forwarder) (w : Worker) (evs : list Event)
    (Hrun : unrouteTimeout sessionId interval received f = (Returned w, f', evs)) :
  0 < interval /\
  match w with
  | Scheduled => f' = f /\ evs = [log_Debug "scheduled"]
  | Cancelled => f' = f /\ evs = [log_Debug "scheduled"; log_Debug "timeout"]
  | Reaped =>
      sessions f' !! sessionId = None /\
      dt_getAddressesForSession sessionId (destinations f') = None /\
      head evs = Some (log_Debug "scheduled") /\ last evs = Some (log_Debug "timeout")
  end.
Proof.
  unfold unrouteTimeout, bind at 1, emit in Hrun.
  case_bool_decide as Hi; [done|]. split; [lia|].
  destruct (unrouteTimeout_loop sessionId interval received f) as [[[w0|p] f0] evs0] eqn:Hloop;
    [|done].
  pose proof (unrouteTimeout_loop_outcome _ _ _ _ _ _ _ Hloop) as Hout.
  destruct w0; simpl in Hrun; injection Hrun as <- <- <-.
  - by destruct Hout as [-> ->].
  - destruct Hout as [? ?]. split_and!; try done.
    by rewrite app_comm_cons, last_snoc.
  - by destruct Hout as [-> ->].
Qed.

(** ** No panic under the discipline of the callers *)

Lemma panic_of_None {A} (o : Result A * Forwarder * list Event) :
  ~ panics o -> panic_of o = None.
Proof.
  unfold panics, panic_of. destruct (result_of o) as [a|p]; [done|].
  intros Hno. destruct Hno. by exists p.
Qed.

Lemma all_xgress_shrink f f' :
  (forall s a, a ∈ linked_addresses f' s -> a ∈ linked_addresses f s) ->
  (forall a d, dt_destinations (destinations f') !! a = Some d ->
               dt_destinations (destinations f) !! a = Some d) ->
  all_xgress f -> all_xgress f'.
Proof. intros Hl Hd Hf s a d Hin Ha. apply (Hf s a d); auto. Qed.

Lemma all_xgress_same_destinations f f' :
  destinations f' = destinations f -> all_xgress f -> all_xgress f'.
Proof.
  intros E. apply all_xgress_shrink.
  - intros s a. unfold linked_addresses. by rewrite E.
  - intros a d. by rewrite E.
Qed.

Lemma UnregisterDestinations_safe sessionId f :
  all_xgress f ->
  panic_of (UnregisterDestinations sessionId f) = None /\
  all_xgress (state_of (UnregisterDestinations sessionId f)).
Proof.
  intros Hf. split.
  - apply panic_of_None. rewrite UnregisterDestinations_panics_iff.
    intros (a & d & Hin & Hd & Hx). destruct (Hf sessionId a d Hin Hd). congruence.
  - destruct (UnregisterDestinations_effect sessionId f) as (_ & _ & Hother & Hthis & _ & Hsome).
    revert Hf. apply all_xgress_shrink; [|done].
    intros s a. unfold linked_addresses. destruct (decide (s = sessionId)) as [->|Hne].
    + destruct Hthis as [-> | ->]; [by intros ?%elem_of_nil | done].
    + by rewrite (Hother s Hne).
Qed.

Lemma Unroute_now_safe sessionId f :
  all_xgress f ->
  panic_of (Unroute sessionId true f) = None /\
  all_xgress (state_of (Unroute sessionId true f)).
Proof.
  intros Hf. rewrite Unroute_now_run. apply UnregisterDestinations_safe.
  by apply (all_xgress_same_destinations f).
Qed.

Lemma unrouteTimeout_loop_safe sessionId interval received :
  forall f, all_xgress f ->
    panic_of (unrouteTimeout_loop sessionId interval received f) = None /\
    all_xgress (state_of (unrouteTimeout_loop sessionId interval received f)).
Proof.
  induction received as [|[now lastRx|] rest IH]; intros f Hf; [done| |done].
  assert (unrouteTimeout_tick sessionId interval now lastRx f = spec_Reap sessionId f \/
          unrouteTimeout_tick sessionId interval now lastRx f = (Returned Scheduled, f, []))
    as [Htick|Htick].
  { rewrite unrouteTimeout_tick_run.
    destruct (first_found _ _) as [d|] eqn:E; [|by left].
    apply first_found_elem in E as (a & Hin & Hd). destruct (Hf sessionId a d Hin Hd) as [x ->].
    case_bool_decide; [by left | by right]. }
  - rewrite (spec_Reap_stops _ _ _ _ _ _ Htick), spec_Reap_run.
    destruct (Unroute_now_safe sessionId f Hf) as [Hp Hs]. split; [|exact Hs].
    unfold panic_of, result_of in *.
    by destruct (Unroute sessionId true f) as [[[[]|p] f'] evs].
  - rewrite (tick_stays _ _ _ _ _ _ Htick). by apply IH.
Qed.

Lemma unrouteTimeout_safe sessionId interval received f :
  0 < interval -> all_xgress f ->
  panic_of (unrouteTimeout sessionId interval received f) = None /\
  all_xgress (state_of (unrouteTimeout sessionId interval received f)).
Proof.
  intros Hi Hf.
  destruct (unrouteTimeout_loop_safe sessionId interval received f Hf) as [Hp Hs].
  unfold unrouteTimeout.
  assert ((emit (log_Debug "scheduled") ;;;
           if bool_decide (interval <= 0) then throw non_positive_interval
           else unrouteTimeout_loop sessionId interval received) f =
          ((unrouteTimeout_loop sessionId interval received f).1.1,
           (unrouteTimeout_loop sessionId interval received f).1.2,
           log_Debug "scheduled" :: (unrouteTimeout_loop sessionId interval received f).2)) as ->.
  { unfold bind, emit. rewrite bool_decide_eq_false_2 by lia.
    by destruct (unrouteTimeout_loop sessionId interval received f) as [[r f'] evs]. }
  unfold panic_of, result_of, state_of in *.
  by destruct (unrouteTimeout_loop sessionId interval received f) as [[[[]|p] f'] evs].
Qed.

Lemma call_safe c f :
  all_xgress f -> well_used c f ->
  call_panic c f = None /\ all_xgress (run_call c f).
Proof.
  intros Hf Hc. destruct c; simpl in *.
  - split; [done|]. intros s a d Hin Hd. simpl in Hd.
    destruct (decide (address = a)) as [->|Hne].
    + rewrite lookup_insert_eq in Hd. by injection Hd as <-.
    + rewrite lookup_insert_ne in Hd by done. apply (Hf s a d); [|done].
      revert Hin. unfold linked_addresses. simpl.
      destruct (decide (sessionId = s)) as [->|Hs].
      * rewrite lookup_insert_eq. simpl.
        intros [->|Hin]%elem_of_add_address; [done|]. exact Hin.
      * by rewrite lookup_insert_ne.
  - by apply UnregisterDestinations_safe.
  - done.
  - split; [done|]. intros s a d Hin Hd. simpl in Hd.
    destruct (decide (Id_Token link = a)) as [<-|Hne].
    + unfold linked_addresses in Hin. simpl in Hin.
      destruct (dt_xgress (destinations f) !! s) as [addresses|] eqn:E;
        [|by apply elem_of_nil in Hin].
      by destruct (Hc s addresses E).
    + rewrite lookup_insert_ne in Hd by done. by apply (Hf s a d).
  - split; [done|]. revert Hf. apply all_xgress_shrink; [done|].
    intros a d. simpl. by intros [_ ?]%lookup_delete_Some.
  - split; [by rewrite Route_run|]. revert Hf. apply all_xgress_same_destinations.
    by rewrite Route_run.
  - destruct now; [by apply Unroute_now_safe | done].
  - by apply UnregisterDestinations_safe.
  - rewrite ForwardPayload_unfold. by repeat case_match.
  - rewrite ForwardAcknowledgement_unfold. by repeat case_match.
  - by apply unrouteTimeout_safe.
Qed.

Lemma history_safe history :
  forall f, all_xgress f -> well_used_history history f ->
    all_xgress (run_calls history f) /\
    forall pre c post, history = pre ++ c :: post -> call_panic c (run_calls pre f) = None.
Proof.
  unfold run_calls. induction history as [|c0 rest IH]; intros f Hf Hused.
  - split; [done|]. by intros [|??] ??.
  - destruct Hused as [Hc0 Hrest]. destruct (call_safe c0 f Hf Hc0) as [Hp Hf'].
    destruct (IH _ Hf' Hrest) as [Hend Hcalls]. split; [done|].
    intros [|c1 pre] c post E; simpl in *.
    + by injection E as <- _.
    + injection E as <- ->. by eapply Hcalls.
Qed.

(** X13. The type assertions never fail while the callers keep their
    discipline: from a forwarder in which every destination reachable through
    the addresses of a session is an xgress (a new forwarder is one), along
    any history of calls in which [RegisterDestination] is given xgress
    endpoints only, a link is never registered under an address linked to a
    session and workers have a positive interval, no call panics, and every
    destination reachable through a session is still an xgress at the end. *)
Theorem disciplined_history_never_panics (history : list Call) (f : Forwarder)
    (Hxgress : all_xgress f)
    (Hused : well_used_history history f) :
  all_xgress (run_calls history f) /\
  (forall pre c post, history = pre ++ c :: post -> call_panic c (run_calls pre f) = None) /\
  (forall options, all_xgress (NewForwarder options)).
Proof.
  destruct (history_safe history f Hxgress Hused) as [Hend Hcalls]. split_and!; [done..|].
  intros options s a d Hin. by apply elem_of_nil in Hin.
Qed.

(** ** Resolving, registering and forwarding *)

Lemma first_found_split (ds : gmap string Destination) addresses d :
  first_found ds addresses = Some d ->
  exists before a after,
    addresses = before ++ a :: after /\
    Forall (fun b => ds !! b = None) before /\
    ds !! a = Some d.
Proof.
  induction addresses as [|a0 rest IH]; simpl; [done|].
  destruct (ds !! a0) as [d0|] eqn:E.
  - intros [= ->]. by exists [], a0, rest.
  - intros (before & a & after & -> & Hbefore & Ha)%IH.
    exists (a0 :: before), a, after. split_and!; [done | by constructor | done].
Qed.

(** X14. [getXgressForSession] only reads: it returns the forwarder it was
    given and makes no call. The xgress it returns is the destination of the
    first address linked to the session that has a destination, and it
    returns nil exactly when no address linked to the session has one. *)
Theorem getXgressForSession_sound (sessionId : SessionId) (f : Forwarder) :
  let o := getXgressForSession sessionId f in
  state_of o = f /\
  events_of o = [] /\
  (forall x, result_of o = Returned (Some x) ->
     exists before a after,
       linked_addresses f sessionId = before ++ a :: after /\
       Forall (fun b => dt_getDestination b (destinations f) = None) before /\
       dt_getDestination a (destinations f) = Some (DestXgress x)) /\
  (result_of o = Returned None <->
   forall a, a ∈ linked_addresses f sessionId -> dt_getDestination a (destinations f) = None).
Proof.
  intros o. subst o. rewrite getXgressForSession_run. unfold dt_getDestination.
  destruct (first_found _ _) as [d|] eqn:E.
  - pose proof (first_found_split _ _ _ E) as (before & a & after & Hsplit & Hbefore & Ha).
    assert (~ forall a, a ∈ linked_addresses f sessionId ->
                        dt_destinations (destinations f) !! a = None) as Hsome.
    { intros Hnone. apply first_found_None in Hnone. congruence. }
    destruct d as [x|l]; simpl; split_and!; try done.
    + intros x' [= <-]. by exists before, a, after.
  - pose proof (proj1 (first_found_None _ _) E) as Hnone. simpl. by split_and!.
Qed.

(** X15. Register, then forward: when the forward table of a session maps a
    source address to a destination address, registering a destination at
    that address, under whatever session and whatever was registered there
    before, makes a payload of the session from that source address go to it;
    so does registering a link whose identity token is that address, and
    after the link is unregistered the payload fails with the "no
    destination" error. *)
Theorem register_then_forward (f : Forwarder) (srcAddr dstAddr : Address) (payload : Payload)
    (ft : gmap string string)
    (Hft : sessions f !! Payload_SessionId payload = Some ft)
    (Hsrc : ft !! srcAddr = Some dstAddr) :
  (forall sessionId dst,
     let f1 := state_of (RegisterDestination sessionId dstAddr dst f) in
     result_of (ForwardPayload srcAddr payload f1) = Returned (SendPayload dst payload) /\
     sent_to (events_of (ForwardPayload srcAddr payload f1)) = [dst]) /\
  (forall link, Id_Token link = dstAddr ->
     let f1 := state_of (RegisterLink link f) in
     let f2 := state_of (UnregisterLink link f1) in
     result_of (ForwardPayload srcAddr payload f1) =
       Returned (SendPayload (DestXlink link) payload) /\
     sent_to (events_of (ForwardPayload srcAddr payload f1)) = [DestXlink link] /\
     ForwardPayload srcAddr payload f2 =
       (Returned (Some (Errorf ("cannot forward payload, no destination for session="
                                +:+ Payload_SessionId payload +:+ " src=" +:+ srcAddr
                                +:+ " dst=" +:+ dstAddr))), f2, [])).
Proof.
  split.
  - intros sessionId dst f1. subst f1. rewrite ForwardPayload_unfold. unfold lookup_chain.
    simpl. rewrite Hft, Hsrc, lookup_insert_eq. simpl.
    split; [done|]. by destruct (SendPayload dst payload).
  - intros link <- f1 f2. subst f1 f2. rewrite !ForwardPayload_unfold. unfold lookup_chain.
    simpl. rewrite Hft, Hsrc, lookup_insert_eq, lookup_delete_eq. simpl.
    split_and!; [done | by destruct (SendPayload (DestXlink link) payload) | done].
Qed.

(** X16. A deferred unroute ends as an immediate one: [Unroute(sessionId,
    false)] changes no table and starts one worker with the interval of the
    options; and a worker with a positive interval, after any number of early
    ticks, at the first tick that finds the xgress idle for the interval does
    to the tables exactly what [Unroute(sessionId, true)] does, starts the
    same goroutines, and stops, whatever its [select] would receive after. *)
Theorem deferred_unroute_ends_as_immediate (sessionId : SessionId) (interval now : Z)
    (lastRx : Xgress -> Z) (x : Xgress) (early rest : list Select) (f : Forwarder)
    (Hinterval : 0 < interval)
    (Hxgress : first_found (dt_destinations (destinations f)) (linked_addresses f sessionId) =
               Some (DestXgress x))
    (Hearly : Forall (early_tick interval x) early)
    (Hlate : late_tick interval x now lastRx) :
  let w := unrouteTimeout sessionId interval (early ++ ticker_C now lastRx :: rest) f in
  Unroute sessionId false f =
    (Returned tt, f, [go (task_unrouteTimeout sessionId (XgressCloseCheckInterval (Options f)))]) /\
  state_of w = state_of (Unroute sessionId true f) /\
  spawned (events_of w) = spawned (events_of (Unroute sessionId true f)) /\
  result_of w = match result_of (Unroute sessionId true f) with
                | Returned _ => Returned Reaped
                | Panicked p => Panicked p
                end.
Proof.
  intros w. split; [done|].
  assert (unrouteTimeout_loop sessionId interval (early ++ ticker_C now lastRx :: rest) f =
          spec_Reap sessionId f) as Hloop.
  { assert (forall rest', unrouteTimeout_loop sessionId interval (early ++ rest') f =
                          unrouteTimeout_loop sessionId interval rest' f) as ->.
    { intros rest'. induction Hearly as [|c early' Hc _ IH]; [done|].
      destruct c as [now' lastRx'|]; [destruct Hc as [Hfits Hlt] | destruct Hc].
      rewrite <- IH. change ((ticker_C now' lastRx' :: early') ++ rest')
        with (ticker_C now' lastRx' :: (early' ++ rest')).
      apply tick_stays. rewrite unrouteTimeout_tick_run, Hxgress. simpl.
      rewrite (elapsed_fits _ Hfits). rewrite bool_decide_eq_false_2; [done | lia]. }
    apply spec_Reap_stops. rewrite unrouteTimeout_tick_run, Hxgress. simpl.
    destruct Hlate as [Hfits Hge]. rewrite (elapsed_fits _ Hfits).
    by rewrite bool_decide_eq_true_2. }
  subst w. unfold unrouteTimeout.
  assert ((emit (log_Debug "scheduled") ;;;
           if bool_decide (interval <= 0) then throw non_positive_interval
           else unrouteTimeout_loop sessionId interval (early ++ ticker_C now lastRx :: rest)) f =
          ((spec_Reap sessionId f).1.1, (spec_Reap sessionId f).1.2,
           log_Debug "scheduled" :: (spec_Reap sessionId f).2)) as ->.
  { unfold bind, emit. rewrite bool_decide_eq_false_2 by lia. rewrite Hloop.
    by destruct (spec_Reap sessionId f) as [[r f'] evs]. }
  rewrite spec_Reap_run. unfold state_of, events_of, result_of.
  destruct (Unroute sessionId true f) as [[[[]|p] f'] evs]; simpl;
    (split_and!; [done | by rewrite spawned_app, app_nil_r | done]).
Qed.

(** X17. Registering a link and unregistering it again: under a token that
    had no destination this leaves the forwarder exactly as it was, as does
    unregistering a link that was never registered; under a token that had a
    destination, that destination is gone afterwards (the link replaced it). *)
Theorem link_round_trip (link : Xlink) (f : Forwarder) :
  let f1 := state_of (RegisterLink link f) in
  let f2 := state_of (UnregisterLink link f1) in
  dt_getDestination (Id_Token link) (destinations f2) = None /\
  (forall a, a <> Id_Token link ->
     dt_getDestination a (destinations f2) = dt_getDestination a (destinations f)) /\
  (dt_getDestination (Id_Token link) (destinations f) = None ->
   f2 = f /\ UnregisterLink link f = (Returned tt, f, [])).
Proof.
  intros f1 f2. subst f1 f2. unfold dt_getDestination. simpl. split_and!.
  - apply lookup_delete_eq.
  - intros a Ha. rewrite lookup_delete_ne, lookup_insert_ne; done.
  - intros Hnone. destruct f as [st [ds xs] opts]. simpl in *.
    unfold UnregisterLink, removeDestination, on_destinations, modify, state_of,
      dt_removeDestination. simpl.
    rewrite delete_insert_eq, (delete_id _ _ Hnone). done.
Qed.

End further.

(** * The further properties, on the scenarios *)

Lemma forward_paths_agree_S1 :
  sent_to (events_of (@ForwardPayload scenario_methods "a" payload_s1 forwarder_S1)) =
  sent_to (events_of (@ForwardAcknowledgement scenario_methods "a" ack_s1 forwarder_S1)).
Proof.
  exact (proj1 (@forward_paths_agree scenario_methods "a" payload_s1 ack_s1 forwarder_S1 eq_refl)).
Defined.

Lemma data_path_read_only_S1 :
  @run_calls scenario_methods traffic_s1 forwarder_S1 = forwarder_S1.
Proof.
  assert (Forall (fun c => is_forward c = true) traffic_s1) as Htraffic by (repeat constructor).
  exact (proj1 (@data_path_read_only scenario_methods traffic_s1 forwarder_S1 Htraffic)).
Defined.

Lemma Route_then_forward_S1 :
  result_of (@ForwardPayload scenario_methods "c" payload_s1
               (state_of (Route (mkRoute "s1" [mkForward "c" "b"; mkForward "c" "a"])
                            forwarder_S1))) =
    Returned (@SendPayload scenario_methods (DestXgress xgress_A) payload_s1) /\
  sent_to (events_of (@ForwardPayload scenario_methods "c" payload_s1
                        (state_of (Route (mkRoute "s1" [mkForward "c" "b"; mkForward "c" "a"])
                                     forwarder_S1)))) =
    [DestXgress xgress_A].
Proof.
  apply (@Route_then_forward scenario_methods
           (mkRoute "s1" [mkForward "c" "b"; mkForward "c" "a"]) forwarder_S1 "c" "a"
           (DestXgress xgress_A)); reflexivity.
Defined.

Lemma Route_unknown_session_S1 :
  @ForwardPayload scenario_methods "z" (mkPayload "s2" 0 "x")
    (state_of (Route (mkRoute "s2" []) forwarder_S1)) =
  (Returned (Some (Errorf "cannot forward payload, no destination address for session=s2 src=z")),
   state_of (Route (mkRoute "s2" []) forwarder_S1), []).
Proof.
  assert (sessions forwarder_S1 !! Route_SessionId (mkRoute "s2" []) = None) as Hunknown
    by reflexivity.
  destruct (@Route_unknown_session scenario_methods (mkRoute "s2" []) forwarder_S1 Hunknown)
    as [_ Herr].
  destruct (Herr "z" (mkPayload "s2" 0 "x") eq_refl eq_refl) as [_ Hafter]. exact Hafter.
Defined.

Lemma Route_frame_S1 :
  state_of (Route (mkRoute "s2" [mkForward "a" "b"]) (state_of (Route route_s1 forwarder_S1))) =
  state_of (Route route_s1 (state_of (Route (mkRoute "s2" [mkForward "a" "b"]) forwarder_S1))).
Proof.
  assert (Route_SessionId route_s1 <> Route_SessionId (mkRoute "s2" [mkForward "a" "b"]))
    as Hsessions by discriminate.
  exact (proj2 (proj2 (Route_frame route_s1 (mkRoute "s2" [mkForward "a" "b"]) forwarder_S1
                         Hsessions))).
Defined.

Lemma register_unregister_round_trip_S1 :
  exists evs,
    UnregisterDestinations "s1"
      (@run_calls scenario_methods (registrations "s1" endpoints_s1)
         (NewForwarder scenario_options)) =
      (Returned tt, NewForwarder scenario_options, evs) /\
    spawned evs = [task_Unrouted xgress_A; task_Unrouted xgress_B].
Proof.
  assert (NoDup endpoints_s1.*1) as Hdistinct.
  { simpl. repeat constructor.
    - intros [Hab|Hnil]%elem_of_cons; [discriminate Hab | by apply elem_of_nil in Hnil].
    - by intros Hnil%elem_of_nil. }
  apply (@register_unregister_round_trip scenario_methods "s1" endpoints_s1
           (NewForwarder scenario_options) Hdistinct); [reflexivity|].
  intros a _. apply lookup_empty.
Defined.

Lemma shared_address_teardown_s1_s2 :
  "a" ∈ linked_addresses (state_of (UnregisterDestinations "s1" forwarder_shared)) "s2" /\
  HasDestination "a" (state_of (UnregisterDestinations "s1" forwarder_shared)) =
    (Returned false, state_of (UnregisterDestinations "s1" forwarder_shared), []).
Proof.
  assert ("s1" <> "s2") as Hsessions by discriminate.
  assert ("a" ∈ linked_addresses forwarder_shared "s1") as H1
    by (vm_compute; apply list_elem_of_here).
  assert ("a" ∈ linked_addresses forwarder_shared "s2") as H2
    by (vm_compute; apply list_elem_of_here).
  assert (UnregisterDestinations "s1" forwarder_shared =
          (Returned tt, state_of (UnregisterDestinations "s1" forwarder_shared),
           events_of (UnregisterDestinations "s1" forwarder_shared))) as Hreturns by reflexivity.
  exact (shared_address_teardown "s1" "s2" "a" forwarder_shared _ _ Hsessions H1 H2 Hreturns).
Defined.

Lemma Unroute_now_frame_shared :
  sessions (state_of (Unroute "s1" true forwarder_S1)) !! "s2" = sessions forwarder_S1 !! "s2" /\
  dt_getAddressesForSession "s2" (destinations (state_of (Unroute "s1" true forwarder_shared))) =
    dt_getAddressesForSession "s2" (destinations forwarder_shared).
Proof.
  assert ("s2" <> "s1") as Hother by discriminate.
  split.
  - exact (proj1 (Unroute_now_frame "s1" "s2" "a" forwarder_S1 Hother)).
  - exact (proj1 (proj2 (Unroute_now_frame "s1" "s2" "a" forwarder_shared Hother))).
Defined.

Lemma early_ticks_are_early : Forall (early_tick 1000000000 xgress_A) early_ticks.
Proof. repeat constructor; unfold fits_int64, Millisecond; simpl; lia. Qed.

Lemma idle_worker_stays_S1 :
  unrouteTimeout_loop "s1" 1000000000 early_ticks forwarder_S1 =
    (Returned Scheduled, forwarder_S1, []).
Proof.
  assert (first_found (dt_destinations (destinations forwarder_S1))
            (linked_addresses forwarder_S1 "s1") = Some (DestXgress xgress_A)) as Hxgress
    by reflexivity.
  exact (proj2 (idle_worker_stays "s1" 1000000000 xgress_A early_ticks [] forwarder_S1
                  Hxgress early_ticks_are_early)).
Defined.

Lemma unknown_session_teardown_new :
  unrouteTimeout_loop "s9" 1000000000 [ticker_C 2000 (fun _ => 500)]
    (NewForwarder scenario_options) =
  (Returned Reaped, NewForwarder scenario_options,
   [log_Debug "found no addresses to unregister for [s/s9]"]).
Proof.
  exact (proj2 (proj2 (proj2
           (unknown_session_teardown "s9" 1000000000 2000 (fun _ => 500) []
              (NewForwarder scenario_options) eq_refl eq_refl)))).
Defined.

Lemma unrouteTimeout_outcome_S5 :
  sessions (state_of (unrouteTimeout "s1" 1000000000 [ticker_C 2000 (fun _ => 500)]
                        forwarder_S1)) !! "s1" = None /\
  dt_getAddressesForSession "s1"
    (destinations (state_of (unrouteTimeout "s1" 1000000000 [ticker_C 2000 (fun _ => 500)]
                               forwarder_S1))) = None.
Proof.
  assert (unrouteTimeout "s1" 1000000000 [ticker_C 2000 (fun _ => 500)] forwarder_S1 =
          (Returned Reaped,
           state_of (unrouteTimeout "s1" 1000000000 [ticker_C 2000 (fun _ => 500)] forwarder_S1),
           events_of (unrouteTimeout "s1" 1000000000 [ticker_C 2000 (fun _ => 500)]
                        forwarder_S1))) as Hrun by reflexivity.
  destruct (unrouteTimeout_outcome _ _ _ _ _ _ _ Hrun) as (_ & Hst & Hxs & _).
  by split.
Defined.

Lemma disciplined_calls_well_used :
  @well_used_history scenario_methods disciplined_calls (NewForwarder scenario_options).
Proof.
  repeat split; try (by eexists); try (simpl; lia).
  cbn [well_used]. apply (bool_decide_unpack _). vm_compute. exact I.
Qed.

Lemma disciplined_history_never_panics_S2 :
  @call_panic scenario_methods (call_Unroute "s1" true)
    (@run_calls scenario_methods (take 8 disciplined_calls) (NewForwarder scenario_options)) =
    None /\
  @call_panic scenario_methods
    (call_unrouteTimeout "s1" 1000000000 [ticker_C 2000 (fun _ => 500)])
    (@run_calls scenario_methods (take 6 disciplined_calls) (NewForwarder scenario_options)) =
    None.
Proof.
  assert (all_xgress (NewForwarder scenario_options)) as Hnew.
  { intros s a d Hin. by apply elem_of_nil in Hin. }
  destruct (@disciplined_history_never_panics scenario_methods disciplined_calls
              (NewForwarder scenario_options) Hnew disciplined_calls_well_used)
    as (_ & Hcalls & _).
  split.
  - exact (Hcalls (take 8 disciplined_calls) _ [] eq_refl).
  - exact (Hcalls (take 6 disciplined_calls) _ (drop 7 disciplined_calls) eq_refl).
Defined.

Lemma register_then_forward_S6 :
  result_of (@ForwardPayload scenario_methods "a" payload_s1
               (state_of (RegisterDestination "s7" "b" (DestXlink link_L) forwarder_S1))) =
    Returned (Some (Errorf "link closed")) /\
  sent_to (events_of (@ForwardPayload scenario_methods "a" payload_s1
                        (state_of (RegisterDestination "s7" "b" (DestXlink link_L)
                                     forwarder_S1)))) =
    [DestXlink link_L].
Proof.
  assert (sessions forwarder_S1 !! Payload_SessionId payload_s1 =
          Some (list_to_map [("a", "b"); ("b", "a")])) as Hft by reflexivity.
  destruct (@register_then_forward scenario_methods forwarder_S1 "a" "b" payload_s1 _ Hft
              eq_refl) as [Hregister _].
  exact (Hregister "s7" (DestXlink link_L)).
Defined.

Lemma deferred_unroute_ends_as_immediate_S5 :
  state_of (unrouteTimeout "s1" 1000000000
              (early_ticks ++ ticker_C 2000 (fun _ => 500) :: [CloseNotify]) forwarder_S1) =
    state_of (Unroute "s1" true forwarder_S1) /\
  spawned (events_of (unrouteTimeout "s1" 1000000000
                        (early_ticks ++ ticker_C 2000 (fun _ => 500) :: [CloseNotify])
                        forwarder_S1)) =
    spawned (events_of (Unroute "s1" true forwarder_S1)).
Proof.
  assert (first_found (dt_destinations (destinations forwarder_S1))
            (linked_addresses forwarder_S1 "s1") = Some (DestXgress xgress_A)) as Hxgress
    by reflexivity.
  assert (late_tick 1000000000 xgress_A 2000 (fun _ => 500)) as Hlate
    by (unfold late_tick, fits_int64, Millisecond; simpl; lia).
  assert (0 < 1000000000) as Hinterval by lia.
  destruct (deferred_unroute_ends_as_immediate "s1" 1000000000 2000 (fun _ => 500) xgress_A
              early_ticks [CloseNotify] forwarder_S1 Hinterval Hxgress early_ticks_are_early
              Hlate) as (_ & Hstate & Hspawned & _).
  by split.
Defined.

Lemma link_round_trip_S6 :
  state_of (UnregisterLink link_L (state_of (RegisterLink link_L forwarder_S1))) = forwarder_S1 /\
  UnregisterLink link_L forwarder_S1 = (Returned tt, forwarder_S1, []).
Proof.
  destruct (link_round_trip link_L forwarder_S1) as (_ & _ & Hfresh).
  apply Hfresh. reflexivity.
Defined.
